(** * lib/forecast.py of the WeatherFlow PiConsole: a shallow embedding

    The module downloads a weather forecast from the UK MetOffice, DarkSky or
    OpenWeather and writes display-ready fields into the caller's [metData]
    dictionary.  Python values are embedded as an inductive type, Python
    floats as IEEE 754 binary64 numbers (the kernel's primitive floats),
    exceptions as an error result, and the mutable dictionary together with
    the calls to the HTTP layer and to [Clock.schedule_once] as an explicit
    state that every operation threads, so that what a run has written
    survives an exception as it does in Python. *)

From Stdlib Require Import ZArith Ascii String Floats DecimalString DecimalN Lia.
From stdpp Require Import base option list strings gmap.

Set Warnings "-inexact-float,-register-all".
Local Open Scope Z_scope.

(** ** Python values *)

(** A [datetime] as the module uses it: the fields that [strftime] and
    [.hour] read. *)
Record datetime := {
  dt_year : Z; dt_month : Z; dt_day : Z;
  dt_hour : Z; dt_minute : Z; dt_second : Z
}.

(** What [json()] can return (None, bool, int, float, str, list, dict with
    string keys, the dict in insertion order) and the [datetime] the module
    stores under ['Time']. *)
Inductive pyobj :=
  | PNone
  | PBool (b : bool)
  | PInt (n : Z)
  | PFloat (f : float)
  | PStr (s : string)
  | PList (l : list pyobj)
  | PDict (kv : list (string * pyobj))
  | PDatetime (d : datetime).

Inductive exn :=
  | KeyError | IndexError | ValueError | TypeError | OverflowError
  | UnknownTimeZoneError.

(** The outcome of evaluating an expression: a value or a raised exception. *)
Inductive res (A : Type) :=
  | Ok (a : A)
  | Raise (e : exn).
Arguments Ok {A} a.
Arguments Raise {A} e.

Global Instance res_ret : MRet res := fun A a => Ok a.
Global Instance res_bind : MBind res := fun A B k r =>
  match r with Ok a => k a | Raise e => Raise e end.

Definition is_Ok {A} (r : res A) : bool :=
  match r with Ok _ => true | Raise _ => false end.

(** ** Subscripts, iteration, comparison *)

Fixpoint dict_get (kv : list (string * pyobj)) (k : string) : option pyobj :=
  match kv with
  | [] => None
  | (k', v) :: kv' => if String.eqb k' k then Some v else dict_get kv' k
  end.

(** [seq[i]] for an int [i], negative indices counting from the end. *)
Definition index_norm (len i : Z) : option nat :=
  let j := if i <? 0 then i + len else i in
  if (0 <=? j) && (j <? len) then Some (Z.to_nat j) else None.

Definition chars (s : string) : list pyobj :=
  (fun a => PStr (String a EmptyString)) <$> String.list_ascii_of_string s.

(** [o[k]] for a string [k]. *)
Definition getitem_str (o : pyobj) (k : string) : res pyobj :=
  match o with
  | PDict kv => match dict_get kv k with Some v => Ok v | None => Raise KeyError end
  | _ => Raise TypeError
  end.

(** [seq[i]] on the elements of a sequence. *)
Definition list_getitem {A} (l : list A) (i : Z) : res A :=
  match index_norm (Z.of_nat (length l)) i with
  | Some j => match l !! j with Some v => Ok v | None => Raise IndexError end
  | None => Raise IndexError
  end.

(** [o[i]] for an int [i]. A dict from JSON has string keys only, so an int
    key is missing. *)
Definition getitem_int (o : pyobj) (i : Z) : res pyobj :=
  match o with
  | PList l => list_getitem l i
  | PStr s => list_getitem (chars s) i
  | PDict _ => Raise KeyError
  | _ => Raise TypeError
  end.

(** [for item in o]. *)
Definition py_iter (o : pyobj) : res (list pyobj) :=
  match o with
  | PList l => Ok l
  | PDict kv => Ok ((fun p => PStr (fst p)) <$> kv)
  | PStr s => Ok (chars s)
  | _ => Raise TypeError
  end.

(** [o == s] for a string [s]. *)
Definition py_eq_str (o : pyobj) (s : string) : bool :=
  match o with PStr s' => String.eqb s' s | _ => false end.

(** [l.index(s)]: the first position holding a value equal to [s]. *)
Fixpoint list_index (l : list pyobj) (s : string) : res Z :=
  match l with
  | [] => Raise ValueError
  | o :: l' => if py_eq_str o s then Ok 0 else (i ← list_index l' s; Ok (i + 1))
  end.

(** ** Numbers *)

Definition float_of_Z (n : Z) : res float :=
  let f := SF2Prim (binary_normalize 53 1024 n 0 false) in
  if PrimFloat.is_infinity f then Raise OverflowError else Ok f.

Definition Z_of_bool (b : bool) : Z := if b then 1 else 0.

(** The exact value of a finite float is [m * 2^e]; Python compares an int
    with a float exactly. [Z_lt_float x f] is [x < f]. *)
Definition Z_lt_float (x : Z) (f : float) : bool :=
  match Prim2SF f with
  | S754_nan => false
  | S754_infinity s => negb s
  | S754_zero _ => x <? 0
  | S754_finite s m e =>
      let v := if s then Z.neg m else Z.pos m in
      if 0 <=? e then x <? v * 2 ^ e else x * 2 ^ (- e) <? v
  end.

(** [x < o] for an int [x]. *)
Definition py_lt_int (x : Z) (o : pyobj) : res bool :=
  match o with
  | PInt n => Ok (x <? n)
  | PBool b => Ok (x <? Z_of_bool b)
  | PFloat f => Ok (Z_lt_float x f)
  | _ => Raise TypeError
  end.

(** [o / c] and [o * c] for a float [c]. *)
Definition py_truediv_float (o : pyobj) (c : float) : res pyobj :=
  match o with
  | PFloat f => Ok (PFloat (f / c)%float)
  | PInt n => f ← float_of_Z n; Ok (PFloat (f / c)%float)
  | PBool b => f ← float_of_Z (Z_of_bool b); Ok (PFloat (f / c)%float)
  | _ => Raise TypeError
  end.

Definition py_mul_float (o : pyobj) (c : float) : res pyobj :=
  match o with
  | PFloat f => Ok (PFloat (f * c)%float)
  | PInt n => f ← float_of_Z n; Ok (PFloat (f * c)%float)
  | PBool b => f ← float_of_Z (Z_of_bool b); Ok (PFloat (f * c)%float)
  | _ => Raise TypeError
  end.

Fixpoint str_repeat (s : string) (n : nat) : string :=
  match n with O => EmptyString | S n' => s +:+ str_repeat s n' end.

(** [o * 100]: numbers multiply, sequences repeat. *)
Definition py_mul_100 (o : pyobj) : res pyobj :=
  match o with
  | PFloat f => Ok (PFloat (f * 100)%float)
  | PInt n => Ok (PInt (n * 100))
  | PBool b => Ok (PInt (Z_of_bool b * 100))
  | PStr s => Ok (PStr (str_repeat s 100))
  | PList l => Ok (PList (mjoin (replicate 100 l)))
  | _ => Raise TypeError
  end.

(** [int(o)]. For a string Python takes optional surrounding whitespace, an
    optional sign and decimal digits, single underscores allowed between
    digits; the embedding reads ASCII (a string with other Unicode digits or
    spaces is a ValueError here). The whitespace that [int] strips from an
    ASCII string is the tab, the line feed, the vertical tab, the form feed,
    the carriage return and the space (9 to 13 and 32); the separators 28 to
    31, which [str.strip] removes, are a ValueError for [int]. *)
Definition is_space (a : ascii) : bool :=
  let n := N_of_ascii a in
  ((9 <=? n) && (n <=? 13) || (n =? 32))%N.

Definition digit_of (a : ascii) : option Z :=
  let n := Z.of_N (N_of_ascii a) in
  if (48 <=? n) && (n <=? 57) then Some (n - 48) else None.

Fixpoint lstrip (l : list ascii) : list ascii :=
  match l with
  | a :: l' => if is_space a then lstrip l' else l
  | [] => []
  end.

Definition strip (l : list ascii) : list ascii :=
  reverse (lstrip (reverse (lstrip l))).

(** Digits after the first one: [acc] is the value read so far, [us] says
    that the previous character was an underscore. *)
Fixpoint int_digits (l : list ascii) (acc : Z) (us : bool) : option Z :=
  match l with
  | [] => if us then None else Some acc
  | a :: l' =>
      match digit_of a with
      | Some d => int_digits l' (acc * 10 + d) false
      | None =>
          if Ascii.eqb a "_" then (if us then None else int_digits l' acc true)
          else None
      end
  end.

Definition int_unsigned (l : list ascii) : option Z :=
  match l with
  | a :: l' => match digit_of a with Some d => int_digits l' d false | None => None end
  | [] => None
  end.

Definition int_of_str (s : string) : option Z :=
  match strip (String.list_ascii_of_string s) with
  | a :: l' =>
      if Ascii.eqb a "-" then Z.opp <$> int_unsigned l'
      else if Ascii.eqb a "+" then int_unsigned l'
      else int_unsigned (a :: l')
  | [] => None
  end.

(** [int(f)] for a float: truncation towards zero. *)
Definition Z_of_float (f : float) : res Z :=
  match Prim2SF f with
  | S754_nan => Raise ValueError
  | S754_infinity _ => Raise OverflowError
  | S754_zero _ => Ok 0
  | S754_finite s m e =>
      let a := if 0 <=? e then Z.pos m * 2 ^ e else Z.pos m / 2 ^ (- e) in
      Ok (if s then - a else a)
  end.

Definition py_int (o : pyobj) : res Z :=
  match o with
  | PInt n => Ok n
  | PBool b => Ok (Z_of_bool b)
  | PFloat f => Z_of_float f
  | PStr s => match int_of_str s with Some n => Ok n | None => Raise ValueError end
  | _ => Raise TypeError
  end.

(** ** Formatting *)

Definition digits (n : Z) : string := NilZero.string_of_uint (N.to_uint (Z.to_N n)).

(** [n] in decimal, padded with zeros on the left to at least [w] characters. *)
Definition zpad (w : nat) (n : Z) : string :=
  let d := digits n in str_repeat "0" (w - String.length d) +:+ d.

(** [n / d] rounded to the nearest integer, a tie to the even one
    ([0 <= n], [0 < d]). *)
Definition round_half_even (n d : Z) : Z :=
  let q := n / d in
  let r := n mod d in
  if 2 * r <? d then q
  else if d <? 2 * r then q + 1
  else if Z.even q then q else q + 1.

(** A non-negative integer [n] of units [10^-prec] in fixed notation. *)
Definition fixed (prec : nat) (n : Z) : string :=
  let p := 10 ^ Z.of_nat prec in
  match prec with
  | O => digits n
  | _ => digits (n / p) +:+ "." +:+ zpad prec (n mod p)
  end.

(** The format specs ['.1f'], ['.0f'] (width 0) and ['02.0f'] (width 2,
    zero fill after the sign) applied to a float: the decimal expansion of
    the float's exact value, correctly rounded to [prec] places. *)
Definition format_float (width prec : nat) (f : float) : string :=
  let zfill (neg : bool) (body : string) :=
    (if neg then "-" else "") +:+
    str_repeat "0" (width - (if neg then 1 else 0) - String.length body) +:+ body in
  match Prim2SF f with
  | S754_nan => "nan"
  | S754_infinity s => zfill s "inf"
  | S754_zero s => zfill s (fixed prec 0)
  | S754_finite s m e =>
      let p := 10 ^ Z.of_nat prec in
      let n := if 0 <=? e then Z.pos m * p * 2 ^ e
               else round_half_even (Z.pos m * p) (2 ^ (- e)) in
      zfill s (fixed prec n)
  end.

(** ['{:<width>.<prec>f}'.format(o)]. *)
Definition format_f (width prec : nat) (o : pyobj) : res string :=
  match o with
  | PFloat f => Ok (format_float width prec f)
  | PInt n => f ← float_of_Z n; Ok (format_float width prec f)
  | PBool b => f ← float_of_Z (Z_of_bool b); Ok (format_float width prec f)
  | PStr _ => Raise ValueError
  | PDatetime _ =>
      (* datetime.__format__ hands the spec to strftime, which copies text
         without directives unchanged *)
      Ok ((if (width =? 2)%nat then "02" else "") +:+ "." +:+ digits (Z.of_nat prec) +:+ "f")
  | _ => Raise TypeError
  end.

(** [d.strftime('%Y-%m-%dZ')] and [d.strftime('%H:%M')]. *)
Definition strftime_Ymd_Z (d : datetime) : string :=
  zpad 4 (dt_year d) +:+ "-" +:+ zpad 2 (dt_month d) +:+ "-" +:+ zpad 2 (dt_day d) +:+ "Z".

Definition strftime_HM (d : datetime) : string :=
  zpad 2 (dt_hour d) +:+ ":" +:+ zpad 2 (dt_minute d).

(** [o[11:-4]]. *)
Definition slice_11_m4 (o : pyobj) : res pyobj :=
  match o with
  | PStr s => Ok (PStr (String.substring 11 (String.length s - 4 - 11) s))
  | PList l => Ok (PList (take (length l - 4 - 11) (drop 11 l)))
  | _ => Raise TypeError
  end.

(** ** bisect.bisect *)

(** The loop of [bisect_right(a, x, lo, hi)]:
    [while lo < hi: mid = (lo+hi)//2; if x < a[mid]: hi = mid else: lo = mid+1].
    Every turn shrinks [hi - lo], so [hi - lo] turns are enough; [fuel] counts
    them. *)
Fixpoint bisect_loop (fuel : nat) (a : list pyobj) (x : Z) (lo hi : nat) : res nat :=
  match fuel with
  | O => Ok lo
  | S fuel' =>
      if (lo <? hi)%nat then
        let mid := ((lo + hi) / 2)%nat in
        match a !! mid with
        | Some y =>
            c ← py_lt_int x y;
            if c : bool then bisect_loop fuel' a x lo mid
            else bisect_loop fuel' a x (mid + 1)%nat hi
        | None => Raise IndexError
        end
      else Ok lo
  end.

Definition bisect (a : list pyobj) (x : Z) : res Z :=
  i ← bisect_loop (length a) a x 0%nat (length a); Ok (Z.of_nat i).

(** ** The caller's dictionary, the HTTP layer and the timer *)

Inductive provider := MetOffice | DarkSky | OpenWeather.

(** What a run does besides writing [metData]: a request through
    [requestAPI.forecast] and a call [Clock.schedule_once(callback, delay)],
    whose callback is always [lambda dt: Download(metData,Config)]. *)
Inductive event :=
  | HttpGet (p : provider)
  | ScheduleOnce (delay : Z).

Record world := {
  metData : gmap string pyobj;
  trace : list event
}.

(** A statement: it reads and writes the world and ends normally or by
    raising; the world it leaves is kept in both cases. *)
Definition M (A : Type) : Type := world → res A * world.

Global Instance M_ret : MRet M := fun A a w => (Ok a, w).
Global Instance M_bind : MBind M := fun A B k m w =>
  match m w with
  | (Ok a, w') => k a w'
  | (Raise e, w') => (Raise e, w')
  end.

Definition lift {A} (r : res A) : M A := fun w => (r, w).

(** [metData[k] = v] *)
Definition setitem (k : string) (v : pyobj) : M unit := fun w =>
  (Ok (), {| metData := <[k := v]> (metData w); trace := trace w |}).

(** [metData[k]] *)
Definition getitem (metData : gmap string pyobj) (k : string) : res pyobj :=
  match metData !! k with Some v => Ok v | None => Raise KeyError end.

(** An expression that reads the dictionary. *)
Definition reads {A} (f : gmap string pyobj → res A) : M A := fun w =>
  (f (metData w), w).

(** [k in metData] *)
Definition contains (k : string) : M bool := fun w =>
  (Ok (bool_decide (is_Some (metData w !! k))), w).

Definition emit (e : event) : M unit := fun w =>
  (Ok (), {| metData := metData w; trace := trace w ++ [e] |}).

(** [try: body / except KeyError: handler; return] followed by [rest]. *)
Definition try_except_KeyError {A B} (body : M A) (handler : M B) (rest : A → M B) : M B :=
  fun w =>
    match body w with
    | (Ok a, w') => rest a w'
    | (Raise KeyError, w') => handler w'
    | (Raise e, w') => (Raise e, w')
    end.

Record config := {
  Station_Country : string;
  Station_Timezone : string;
  Keys_DarkSky : string;
  Keys_OpenWeather : string;
  Units_Temp : string;
  Units_Wind : string
}.

(** A configuration value is a string; it is true when it is not empty. *)
Definition truthy (s : string) : bool := negb (String.eqb s "").

(** Modelled from the spec: [requestAPI.forecast.verifyResponse] is not part
    of this file; the spec gives it as a shape check that confirms that a
    named top-level key exists. A response is the JSON document it carries,
    if it carries one. *)
Definition verifyResponse (Data : option pyobj) (Field : string) : bool :=
  match Data with
  | Some (PDict kv) => bool_decide (is_Some (dict_get kv Field))
  | _ => false
  end.

(** [Data.json()] *)
Definition response_json (Data : option pyobj) : res pyobj :=
  match Data with Some j => Ok j | None => Raise ValueError end.

(** ** The module *)

(** The table of [ExtractOpenWeather]. *)
Definition ICONMAP : list (string * string) :=
  [("01n", "0"); ("01d", "1"); ("02n", "2"); ("02d", "3"); ("50d", "6");
   ("50n", "6"); ("03d", "7"); ("03n", "7"); ("04d", "8"); ("04n", "8");
   ("09n", "9"); ("09d", "10"); ("10n", "13"); ("10d", "14"); ("13n", "22");
   ("13d", "23"); ("11n", "28"); ("11d", "29")].

Fixpoint table_get (t : list (string * string)) (k : string) : option string :=
  match t with
  | [] => None
  | (k', v) :: t' => if String.eqb k' k then Some v else table_get t' k
  end.

(** [t.get(o, d)]: a list or a dict cannot be hashed; any other value that
    is not a string equals no key. *)
Definition table_get_default (t : list (string * string)) (o : pyobj) (d : string)
  : res string :=
  match o with
  | PStr s => Ok (default d (table_get t s))
  | PList _ | PDict _ => Raise TypeError
  | _ => Ok d
  end.

(** The [if]/[elif] chain of [ExtractDarkSky]. *)
Definition DarkSky_icon (Weather : pyobj) : string :=
  if py_eq_str Weather "clear-day" then "1"
  else if py_eq_str Weather "clear-night" then "0"
  else if py_eq_str Weather "rain" then "12"
  else if py_eq_str Weather "snow" then "27"
  else if py_eq_str Weather "sleet" then "18"
  else if py_eq_str Weather "wind" then "wind"
  else if py_eq_str Weather "fog" then "6"
  else if py_eq_str Weather "cloudy" then "7"
  else if py_eq_str Weather "partly-cloudy-day" then "3"
  else if py_eq_str Weather "partly-cloudy-night" then "2"
  else "ForecastUnavailable".

(** The wind speed in metres per second, as lines 146 and 218 and line 313
    compute it from the provider's value. *)
Definition mph_to_mps (f : float) : float := (f / 2.2369362920544)%float.

Definition DarkSky_wind_mps (S : pyobj) : res pyobj :=
  py_truediv_float S 2.2369362920544.

Definition OpenWeather_wind_mps (S : pyobj) : res pyobj :=
  py_mul_float S 0.2778.

(** What one call reads from outside: the response to a request, the
    current time in a zone ([datetime.now(pytz.utc).astimezone(Tz)], the zone
    being what [pytz.timezone] returned) and the two readings of
    [int(time.time())] that an extraction takes. *)
Record env (tzinfo : Type) := {
  http : provider → option pyobj;
  now : tzinfo → datetime;
  time1 : Z;
  time2 : Z
}.
Arguments http {tzinfo} _ _.
Arguments now {tzinfo} _ _.
Arguments time1 {tzinfo} _.
Arguments time2 {tzinfo} _.

(** ** Sample collaborators and inputs *)

(** Stand-ins for the collaborators and inputs on which the module is run
    below. A time zone is its offset from UTC in seconds. *)
Module Example.

Definition pytz_timezone (name : string) : option Z :=
  if String.eqb name "UTC" then Some 0
  else if String.eqb name "Etc/GMT-1" then Some 3600
  else None.

(** The proleptic Gregorian date of a day counted from 1970-01-01. *)
Definition civil_from_days (z : Z) : Z * Z * Z :=
  let z := z + 719468 in
  let era := z / 146097 in
  let doe := z - era * 146097 in
  let yoe := (doe - doe / 1460 + doe / 36524 - doe / 146096) / 365 in
  let doy := doe - (365 * yoe + yoe / 4 - yoe / 100) in
  let mp := (5 * doy + 2) / 153 in
  let d := doy - (153 * mp + 2) / 5 + 1 in
  let m := if mp <? 10 then mp + 3 else mp - 9 in
  (yoe + era * 400 + (if m <=? 2 then 1 else 0), m, d).

Definition datetime_of (t : Z) (tz : Z) : datetime :=
  let t := t + tz in
  let '(y, m, d) := civil_from_days (t / 86400) in
  let s := t mod 86400 in
  {| dt_year := y; dt_month := m; dt_day := d;
     dt_hour := s / 3600; dt_minute := s mod 3600 / 60; dt_second := s mod 60 |}.

(** [datetime.fromtimestamp] of a whole number of seconds. *)
Definition fromtimestamp (o : pyobj) (tz : Z) : res datetime :=
  match o with
  | PInt n => Ok (datetime_of n tz)
  | PBool b => Ok (datetime_of (Z_of_bool b) tz)
  | _ => Raise TypeError
  end.

(** [float] of the decimal literal of an integer. *)
Definition float_of_str (s : string) : option float :=
  match int_of_str s with
  | Some n => match float_of_Z n with Ok f => Some f | Raise _ => None end
  | None => None
  end.

(** [str] of None, a bool and an int. *)
Definition str_of_obj (o : pyobj) : string :=
  match o with
  | PNone => "None"
  | PBool true => "True"
  | PBool false => "False"
  | PInt n => (if n <? 0 then "-" else "") +:+ digits (Z.abs n)
  | _ => ""
  end.

(** A conversion of units that knows Celsius to Fahrenheit and metres per
    second to kilometres per hour, and returns any other value as it is. *)
Definition Units (obs : pyobj) (unit : string) : res pyobj :=
  match obs with
  | PList [PFloat v; PStr u] =>
      if String.eqb u "c" && String.eqb unit "f"
      then Ok (PList [PFloat (v * 9 / 5 + 32)%float; PStr "f"])
      else if String.eqb u "mps" && String.eqb unit "kph"
      then Ok (PList [PFloat (v * 3.6)%float; PStr "kph"])
      else Ok obs
  | _ => Ok obs
  end.

Definition compass : list string :=
  ["N"; "NNE"; "NE"; "ENE"; "E"; "ESE"; "SE"; "SSE";
   "S"; "SSW"; "SW"; "WSW"; "W"; "WNW"; "NW"; "NNW"].

(** The sixteen-point compass label of a bearing in whole degrees, after the
    bearing and its unit. *)
Definition CardinalWindDirection (dir : pyobj) : res pyobj :=
  match dir with
  | PList [PInt d; u] =>
      let label := default "N" (compass !! Z.to_nat ((4 * d + 45) / 90 mod 16)) in
      Ok (PList [PInt d; u; PStr label])
  | _ => Raise TypeError
  end.

Definition config_GB : config :=
  {| Station_Country := "GB"; Station_Timezone := "UTC";
     Keys_DarkSky := "0123abcd"; Keys_OpenWeather := "4567cdef";
     Units_Temp := "c"; Units_Wind := "mps" |}.

Definition config_DarkSky : config :=
  {| Station_Country := "US"; Station_Timezone := "UTC";
     Keys_DarkSky := "0123abcd"; Keys_OpenWeather := "4567cdef";
     Units_Temp := "c"; Units_Wind := "mps" |}.

Definition config_OpenWeather : config :=
  {| Station_Country := "US"; Station_Timezone := "UTC";
     Keys_DarkSky := ""; Keys_OpenWeather := "4567cdef";
     Units_Temp := "c"; Units_Wind := "mps" |}.

Definition config_no_key : config :=
  {| Station_Country := "US"; Station_Timezone := "UTC";
     Keys_DarkSky := ""; Keys_OpenWeather := "";
     Units_Temp := "c"; Units_Wind := "mps" |}.

(** A three-hourly report of the MetOffice: the minutes after midnight at
    which it starts, temperature, wind speed in mph, wind direction,
    precipitation probability and weather code, all strings. *)
Definition Rep (start T S D Pp W : string) : pyobj :=
  PDict [("D", PStr D); ("Pp", PStr Pp); ("S", PStr S); ("T", PStr T);
         ("W", PStr W); ("$", PStr start)].

Definition Reps : list pyobj :=
  [Rep "0" "11" "7" "SW" "5" "2"; Rep "180" "10" "7" "SW" "4" "0";
   Rep "360" "11" "9" "SW" "8" "3"; Rep "540" "14" "11" "WSW" "12" "7";
   Rep "720" "17" "13" "W" "40" "12"; Rep "900" "18" "13" "W" "35" "10";
   Rep "1080" "16" "11" "W" "15" "7"; Rep "1260" "13" "9" "WNW" "6" "2"].

Definition Period : pyobj :=
  PList [PDict [("type", PStr "Day"); ("value", PStr "2020-07-01Z"); ("Rep", PList Reps)];
         PDict [("type", PStr "Day"); ("value", PStr "2020-07-02Z"); ("Rep", PList Reps)]].

Definition MetOffice_json : pyobj :=
  PDict [("SiteRep",
    PDict [("Wx", PDict []);
           ("DV", PDict [("dataDate", PStr "2020-07-01T13:00:00Z");
                         ("type", PStr "Forecast");
                         ("Location", PDict [("name", PStr "HEATHROW");
                                             ("Period", Period)])])])].

(** Hourly entries from 2020-07-01 13:00 UTC on. *)
Definition DarkSky_entry (t : Z) (icon : string) : pyobj :=
  PDict [("time", PInt t); ("icon", PStr icon); ("precipProbability", PFloat 0.35);
         ("temperature", PFloat 17.3); ("windSpeed", PInt 10); ("windBearing", PInt 225)].

Definition DarkSky_data : pyobj :=
  PList [DarkSky_entry 1593608400 "cloudy"; DarkSky_entry 1593612000 "rain";
         DarkSky_entry 1593615600 "rain"].

Definition DarkSky_json : pyobj :=
  PDict [("timezone", PStr "UTC");
         ("hourly", PDict [("summary", PStr "Rain"); ("data", DarkSky_data)])].

Definition OpenWeather_entry (t : Z) (icon : string) : pyobj :=
  PDict [("dt", PInt t); ("temp", PFloat 17.3); ("wind_speed", PInt 10);
         ("wind_deg", PInt 225); ("pop", PFloat 0.35);
         ("precipProbability", PFloat 0.35);
         ("weather", PList [PDict [("id", PInt 500); ("icon", PStr icon)]])].

Definition OpenWeather_hourly : pyobj :=
  PList [OpenWeather_entry 1593608400 "04d"; OpenWeather_entry 1593612000 "10d";
         OpenWeather_entry 1593615600 "10d"].

Definition OpenWeather_json : pyobj :=
  PDict [("timezone", PStr "UTC"); ("hourly", OpenWeather_hourly)].

Definition json_of (p : provider) : pyobj :=
  match p with
  | MetOffice => MetOffice_json
  | DarkSky => DarkSky_json
  | OpenWeather => OpenWeather_json
  end.

(** The outside at the time [t]: every request is answered with [answer]. *)
Definition at_time (t : Z) (answer : provider → option pyobj) : env Z :=
  {| http := answer; now := datetime_of t; time1 := t; time2 := t |}.

(** 2020-07-01 14:05 UTC, with the providers answering. *)
Definition online : env Z := at_time 1593612300 (λ p, Some (json_of p)).

(** The same time, with no response or with a document that lacks the
    top-level key. *)
Definition offline : env Z := at_time 1593612300 (λ _, None).

Definition no_key : env Z := at_time 1593612300 (λ _, Some (PDict [("cod", PInt 401)])).

(** The same time, with a document whose top-level key holds nothing. *)
Definition hollow : env Z :=
  at_time 1593612300 (λ _, Some (PDict [("SiteRep", PDict []); ("hourly", PDict [])])).

(** 2020-07-01 23:10 UTC, with the providers answering. *)
Definition late_evening : env Z := at_time 1593645000 (λ p, Some (json_of p)).

(** 2020-07-03 15:00 UTC, with no response. *)
Definition two_days_later : env Z := at_time 1593788400 (λ _, None).

(** A dictionary that nothing was written to, and one that holds the fields
    of an earlier forecast and no raw data. *)
Definition fresh : world := {| metData := ∅; trace := [] |}.

Definition shown : world :=
  {| metData := list_to_map
       [("Time", PDatetime (datetime_of 1593608700 0)); ("Issued", PStr "13:00");
        ("Valid", PStr "15:00"); ("Temp", PList [PStr "17.0"; PStr "c"]);
        ("WindDir", PStr "W"); ("WindSpd", PList [PStr "6"; PStr "mps"]);
        ("Weather", PStr "12"); ("Precip", PStr "40"); ("Source", PStr "MetOffice")];
     trace := [] |}.

(** A dictionary that holds the raw data of a provider and nothing else. *)
Definition cached (p : provider) : world :=
  {| metData := {["Dict" := json_of p]}; trace := [] |}.

(** A station whose time zone [pytz] does not know. *)
Definition config_lost : config :=
  {| Station_Country := "GB"; Station_Timezone := "Greenwich/Mean";
     Keys_DarkSky := ""; Keys_OpenWeather := "";
     Units_Temp := "c"; Units_Wind := "mps" |}.

(** 2020-07-01 10:40 UTC, before the first hourly entry of the samples, with
    the providers answering. *)
Definition early : env Z := at_time 1593600000 (λ p, Some (json_of p)).

(** A dictionary whose raw data has hourly entries that hold a time and
    nothing else. *)
Definition bare : world :=
  {| metData :=
       {["Dict" := PDict [("hourly",
           PDict [("data", PList [PDict [("time", PInt 1593608400)];
                                  PDict [("time", PInt 1593612000)];
                                  PDict [("time", PInt 1593615600)]])])]]};
     trace := [] |}.

End Example.

(** ** The functions of the module *)

Section Forecast.

(** The collaborators that are not part of the module: [pytz.timezone]
    ([None] when it raises UnknownTimeZoneError),
    [datetime.fromtimestamp(x, pytz.utc).astimezone(Tz)], [float] and [str]
    on a string and on a value that is not one, [observation.Units] and
    [derive.CardinalWindDirection]. *)
Variable tzinfo : Type.
Variable pytz_timezone : string → option tzinfo.
Variable fromtimestamp : pyobj → tzinfo → res datetime.
Variable float_of_str : string → option float.
Variable str_of_obj : pyobj → string.
Variable Units : pyobj → string → res pyobj.
Variable CardinalWindDirection : pyobj → res pyobj.

Definition timezone (name : string) : res tzinfo :=
  match pytz_timezone name with
  | Some tz => Ok tz
  | None => Raise UnknownTimeZoneError
  end.

(** [float(o)] and [str(o)] *)
Definition py_float (o : pyobj) : res float :=
  match o with
  | PFloat f => Ok f
  | PInt n => float_of_Z n
  | PBool b => float_of_Z (Z_of_bool b)
  | PStr s => match float_of_str s with Some f => Ok f | None => Raise ValueError end
  | _ => Raise TypeError
  end.

Definition str (o : pyobj) : string :=
  match o with PStr s => s | _ => str_of_obj o end.

(** Lines 131-132: the dates of the forecasts and the reports of today. *)
Definition MetOffice_today (metDict : pyobj) (Now : datetime) : res pyobj :=
  items ← py_iter metDict;
  Dates ← mapM (λ item, getitem_str item "value") items;
  i ← list_index Dates (strftime_Ymd_Z Now);
  day ← getitem_int metDict i;
  getitem_str day "Rep".

(** [int(item['$'])//60]: the hour at which a report starts to be valid. *)
Definition period_start (item : pyobj) : res Z :=
  d ← getitem_str item "$";
  n ← py_int d;
  Ok (n / 60).

(** Lines 136-142: the report of the current three-hour period and the hour
    until which it is valid. *)
Definition MetOffice_period (metDict : pyobj) (Now : datetime) : res (pyobj * Z) :=
  items ← py_iter metDict;
  Times ← mapM period_start items;
  b ← bisect (PInt <$> Times) (dt_hour Now);
  metDict ← getitem_int metDict (b - 1);
  b ← bisect (PInt <$> Times) (dt_hour Now);
  t ← list_getitem Times (b - 1);
  let Valid := t + 3 in
  let Valid := if Valid =? 24 then 0 else Valid in
  Ok (metDict, Valid).

(** Lines 113-114, the body of the [try]. *)
Definition MetOffice_try (metData : gmap string pyobj) : res (string * pyobj) :=
  Dict ← getitem metData "Dict";
  SiteRep ← getitem_str Dict "SiteRep";
  DV ← getitem_str SiteRep "DV";
  dataDate ← getitem_str DV "dataDate";
  sl ← slice_11_m4 dataDate;
  let Issued := str sl in
  Dict ← getitem metData "Dict";
  SiteRep ← getitem_str Dict "SiteRep";
  DV ← getitem_str SiteRep "DV";
  Location ← getitem_str DV "Location";
  metDict ← getitem_str Location "Period";
  Ok (Issued, metDict).

Definition ExtractMetOffice (E : env tzinfo) (Config : config) : M unit :=
  Tz ← lift (timezone (Station_Timezone Config));
  let Now := now E Tz in
  try_except_KeyError
    (reads MetOffice_try)
    (setitem "Time" (PDatetime Now);;
     setitem "Temp" (PStr "--");;
     setitem "WindDir" (PStr "--");;
     setitem "WindSpd" (PStr "--");;
     setitem "Weather" (PStr "ForecastUnavailable");;
     setitem "Precip" (PStr "--");;
     setitem "Valid" (PStr "--");;
     emit (ScheduleOnce 600))
    (λ '(Issued, metDict),
       metDict ← lift (MetOffice_today metDict Now);
       '(metDict, Valid) ← lift (MetOffice_period metDict Now);
       T ← lift (getitem_str metDict "T");
       T ← lift (py_float T);
       let Temp := PList [PFloat T; PStr "c"] in
       S ← lift (getitem_str metDict "S");
       S ← lift (py_float S);
       let WindSpd := PList [PFloat (mph_to_mps S); PStr "mps"] in
       D ← lift (getitem_str metDict "D");
       let WindDir := PList [D; PStr "cardinal"] in
       Pp ← lift (getitem_str metDict "Pp");
       let Precip := PList [Pp; PStr "%"] in
       Weather ← lift (getitem_str metDict "W");
       Temp ← lift (Units Temp (Units_Temp Config));
       WindSpd ← lift (Units WindSpd (Units_Wind Config));
       setitem "Time" (PDatetime Now);;
       setitem "Issued" (PStr Issued);;
       v ← lift (format_f 2 0 (PInt Valid));
       setitem "Valid" (PStr (v +:+ ":00"));;
       t0 ← lift (getitem_int Temp 0);
       t0 ← lift (format_f 0 1 t0);
       t1 ← lift (getitem_int Temp 1);
       setitem "Temp" (PList [PStr t0; t1]);;
       d0 ← lift (getitem_int WindDir 0);
       setitem "WindDir" d0;;
       s0 ← lift (getitem_int WindSpd 0);
       s0 ← lift (format_f 0 0 s0);
       s1 ← lift (getitem_int WindSpd 1);
       setitem "WindSpd" (PList [PStr s0; s1]);;
       setitem "Weather" Weather;;
       p0 ← lift (getitem_int Precip 0);
       setitem "Precip" p0;;
       setitem "Source" (PStr "MetOffice")).

(** Lines 207-214 and 302-309: the entry of the current hour and the
    'Issued' and 'Valid' times; [key] is ['time'] or ['dt']. *)
Definition hourly_period (key : string) (E : env tzinfo) (Tz : tzinfo) (metDict : pyobj)
  : res (pyobj * datetime * datetime) :=
  items ← py_iter metDict;
  Times ← mapM (λ item, getitem_str item key) items;
  b ← bisect Times (time1 E);
  metDict ← getitem_int metDict (b - 1);
  Issued ← list_getitem Times 0;
  b ← bisect Times (time2 E);
  Valid ← list_getitem Times b;
  Issued ← fromtimestamp Issued Tz;
  Valid ← fromtimestamp Valid Tz;
  Ok (metDict, Issued, Valid).

(** Line 190, the body of the [try]. *)
Definition DarkSky_try (metData : gmap string pyobj) : res pyobj :=
  Dict ← getitem metData "Dict";
  hourly ← getitem_str Dict "hourly";
  getitem_str hourly "data".

Definition ExtractDarkSky (E : env tzinfo) (Config : config) : M unit :=
  Tz ← lift (timezone (Station_Timezone Config));
  let Now := now E Tz in
  Tz ← lift (timezone (Station_Timezone Config));
  try_except_KeyError
    (reads DarkSky_try)
    (setitem "Time" (PDatetime Now);;
     setitem "Temp" (PStr "--");;
     setitem "WindDir" (PStr "--");;
     setitem "WindSpd" (PStr "--");;
     setitem "Weather" (PStr "ForecastUnavailable");;
     setitem "Precip" (PStr "--");;
     setitem "Valid" (PStr "--");;
     emit (ScheduleOnce 600))
    (λ metDict,
       '(metDict, Issued, Valid) ← lift (hourly_period "time" E Tz metDict);
       T ← lift (getitem_str metDict "temperature");
       let Temp := PList [T; PStr "c"] in
       S ← lift (getitem_str metDict "windSpeed");
       S ← lift (DarkSky_wind_mps S);
       let WindSpd := PList [S; PStr "mps"] in
       B ← lift (getitem_str metDict "windBearing");
       let WindDir := PList [B; PStr "degrees"] in
       P ← lift (getitem_str metDict "precipProbability");
       P ← lift (py_mul_100 P);
       let Precip := PList [P; PStr "%"] in
       Weather ← lift (getitem_str metDict "icon");
       Temp ← lift (Units Temp (Units_Temp Config));
       WindSpd ← lift (Units WindSpd (Units_Wind Config));
       setitem "Time" (PDatetime Now);;
       setitem "Issued" (PStr (strftime_HM Issued));;
       setitem "Valid" (PStr (strftime_HM Valid));;
       t0 ← lift (getitem_int Temp 0);
       t0 ← lift (format_f 0 1 t0);
       t1 ← lift (getitem_int Temp 1);
       setitem "Temp" (PList [PStr t0; t1]);;
       c ← lift (CardinalWindDirection WindDir);
       c ← lift (getitem_int c 2);
       setitem "WindDir" c;;
       s0 ← lift (getitem_int WindSpd 0);
       s0 ← lift (format_f 0 0 s0);
       s1 ← lift (getitem_int WindSpd 1);
       setitem "WindSpd" (PList [PStr s0; s1]);;
       p0 ← lift (getitem_int Precip 0);
       p0 ← lift (format_f 0 0 p0);
       setitem "Precip" (PStr p0);;
       setitem "Source" (PStr "DarkSky");;
       setitem "Weather" (PStr (DarkSky_icon Weather))).

(** Line 285, the body of the [try]. *)
Definition OpenWeather_try (metData : gmap string pyobj) : res pyobj :=
  Dict ← getitem metData "Dict";
  getitem_str Dict "hourly".

Definition ExtractOpenWeather (E : env tzinfo) (Config : config) : M unit :=
  Tz ← lift (timezone (Station_Timezone Config));
  let Now := now E Tz in
  try_except_KeyError
    (reads OpenWeather_try)
    (setitem "Time" (PDatetime Now);;
     setitem "Temp" (PStr "--");;
     setitem "WindDir" (PStr "--");;
     setitem "WindSpd" (PStr "--");;
     setitem "Weather" (PStr "ForecastUnavailable");;
     setitem "Precip" (PStr "--");;
     setitem "Valid" (PStr "--");;
     emit (ScheduleOnce 600))
    (λ metDict,
       '(metDict, Issued, Valid) ← lift (hourly_period "dt" E Tz metDict);
       T ← lift (getitem_str metDict "temp");
       let Temp := PList [T; PStr "c"] in
       S ← lift (getitem_str metDict "wind_speed");
       S ← lift (OpenWeather_wind_mps S);
       let WindSpd := PList [S; PStr "mps"] in
       B ← lift (getitem_str metDict "wind_deg");
       let WindDir := PList [B; PStr "degrees"] in
       Weather ← lift (getitem_str metDict "weather");
       Weather ← lift (getitem_int Weather 0);
       Weather ← lift (getitem_str Weather "icon");
       Temp ← lift (Units Temp (Units_Temp Config));
       WindSpd ← lift (Units WindSpd (Units_Wind Config));
       setitem "Time" (PDatetime Now);;
       setitem "Issued" (PStr (strftime_HM Issued));;
       setitem "Valid" (PStr (strftime_HM Valid));;
       t0 ← lift (getitem_int Temp 0);
       t0 ← lift (format_f 0 1 t0);
       t1 ← lift (getitem_int Temp 1);
       setitem "Temp" (PList [PStr t0; t1]);;
       c ← lift (CardinalWindDirection WindDir);
       c ← lift (getitem_int c 2);
       setitem "WindDir" c;;
       s0 ← lift (getitem_int WindSpd 0);
       s0 ← lift (format_f 0 0 s0);
       s1 ← lift (getitem_int WindSpd 1);
       setitem "WindSpd" (PList [PStr s0; s1]);;
       setitem "Precip" (PStr "--");;
       setitem "Source" (PStr "OpenWeather");;
       w ← lift (table_get_default ICONMAP Weather "ForecastUnavailable");
       setitem "Weather" (PStr w)).

(** [Download] returns the dictionary it was given; the embedding returns
    nothing and leaves the dictionary in the world. *)
Definition Download (E : env tzinfo) (Config : config) : M unit :=
  if String.eqb (Station_Country Config) "GB" then
    emit (HttpGet MetOffice);;
    let Data := http E MetOffice in
    (if verifyResponse Data "SiteRep" then
       j ← lift (response_json Data);
       setitem "Dict" j
     else
       emit (ScheduleOnce 600);;
       c ← contains "Dict";
       if negb c then setitem "Dict" (PDict []) else mret ());;
    ExtractMetOffice E Config
  else if truthy (Keys_DarkSky Config) then
    emit (HttpGet DarkSky);;
    let Data := http E DarkSky in
    (if verifyResponse Data "hourly" then
       j ← lift (response_json Data);
       setitem "Dict" j
     else
       emit (ScheduleOnce 600);;
       c ← contains "Dict";
       if negb c then setitem "Dict" (PDict []) else mret ());;
    ExtractDarkSky E Config
  else if truthy (Keys_OpenWeather Config) then
    emit (HttpGet OpenWeather);;
    let Data := http E OpenWeather in
    (if verifyResponse Data "hourly" then
       j ← lift (response_json Data);
       setitem "Dict" j
     else
       emit (ScheduleOnce 600);;
       c ← contains "Dict";
       if negb c then setitem "Dict" (PDict []) else mret ());;
    ExtractOpenWeather E Config
  else mret ().

(** ** Notions of the statements *)

(** A sequence of ints is ordered when no element is larger than its
    successor. *)
Fixpoint is_sorted (l : list Z) : bool :=
  match l with
  | x :: (y :: _) as l' => (x <=? y) && is_sorted l'
  | _ => true
  end.

(** The providers that a trace shows requests to, in order. *)
Definition requests (t : list event) : list provider :=
  omap (λ e, match e with HttpGet p => Some p | ScheduleOnce _ => None end) t.

Definition top_level_key (p : provider) : string :=
  match p with MetOffice => "SiteRep" | DarkSky | OpenWeather => "hourly" end.

(** The world in which the extraction step starts: after the request to
    [p] and the shape check of its response. *)
Definition after_request (p : provider) (E : env tzinfo) (w : world) : world :=
  if verifyResponse (http E p) (top_level_key p) then
    {| metData := <["Dict" := default PNone (http E p)]> (metData w);
       trace := trace w ++ [HttpGet p] |}
  else
    {| metData := match metData w !! "Dict" with
                  | Some _ => metData w
                  | None => <["Dict" := PDict []]> (metData w)
                  end;
       trace := trace w ++ [HttpGet p; ScheduleOnce 600] |}.

(** The extraction step of a provider, and the configurations that select
    the provider. *)
Definition Extract (p : provider) : env tzinfo → config → M unit :=
  match p with
  | MetOffice => ExtractMetOffice
  | DarkSky => ExtractDarkSky
  | OpenWeather => ExtractOpenWeather
  end.

Definition selects (Config : config) (p : provider) : Prop :=
  match p with
  | MetOffice => Station_Country Config = "GB"
  | DarkSky => Station_Country Config ≠ "GB" ∧ Keys_DarkSky Config ≠ ""
  | OpenWeather =>
      Station_Country Config ≠ "GB" ∧ Keys_DarkSky Config = "" ∧
      Keys_OpenWeather Config ≠ ""
  end.

(** The world after a request to [p] whose response failed the shape check:
    raw data cached earlier stays, an empty dict stands in when there is
    none, and a retry is scheduled. *)
Definition after_failed_check (p : provider) (w : world) : world :=
  {| metData := match metData w !! "Dict" with
                | Some _ => metData w
                | None => <["Dict" := PDict []]> (metData w)
                end;
     trace := trace w ++ [HttpGet p; ScheduleOnce 600] |}.

(** The world after the [except KeyError] branch of an extraction. *)
Definition blanked (Now : datetime) (w : world) : world :=
  {| metData :=
       <["Valid" := PStr "--"]>
         (<["Precip" := PStr "--"]>
            (<["Weather" := PStr "ForecastUnavailable"]>
               (<["WindSpd" := PStr "--"]>
                  (<["WindDir" := PStr "--"]>
                     (<["Temp" := PStr "--"]>
                        (<["Time" := PDatetime Now]> (metData w)))))));
     trace := trace w ++ [ScheduleOnce 600] |}.

(** The world after the assignments [metData[k] = v] for the pairs of
    [fields], in order. *)
Definition written (fields : list (string * pyobj)) (w : world) : world :=
  {| metData := foldl (λ m kv, <[kv.1 := kv.2]> m) (metData w) fields;
     trace := trace w |}.

(** Position [j] holds the latest period that starts at or before [hour]. *)
Definition latest_period (starts : list Z) (hour : Z) (j : nat) (s : Z) : Prop :=
  starts !! j = Some s ∧ s ≤ hour ∧
  ∀ j' s', (j < j')%nat → starts !! j' = Some s' → hour < s'.

(** The hour until which a period that starts at [s] is valid (lines
    140-142). *)
Definition valid_until (s : Z) : Z := if s + 3 =? 24 then 0 else s + 3.

(** The icon tables as the specification documents them. *)
Definition DarkSky_table : list (string * string) :=
  [("clear-day", "1"); ("clear-night", "0"); ("rain", "12"); ("snow", "27");
   ("sleet", "18"); ("wind", "wind"); ("fog", "6"); ("cloudy", "7");
   ("partly-cloudy-day", "3"); ("partly-cloudy-night", "2")].

Definition OpenWeather_table : list (string * string) :=
  [("01n", "0"); ("01d", "1"); ("02n", "2"); ("02d", "3"); ("50d", "6");
   ("50n", "6"); ("03d", "7"); ("03n", "7"); ("04d", "8"); ("04n", "8");
   ("09n", "9"); ("09d", "10"); ("10n", "13"); ("10d", "14"); ("13n", "22");
   ("13d", "23"); ("11n", "28"); ("11d", "29")].

(** The fields that the rendering layer reads. *)
Definition display_fields : list string :=
  ["Time"; "Issued"; "Valid"; "Temp"; "WindDir"; "WindSpd"; "Weather";
   "Precip"; "Source"].

(** The outcome of the [try] of a provider's extraction on a dictionary. *)
Definition found (p : provider) (md : gmap string pyobj) : res unit :=
  match p with
  | MetOffice => MetOffice_try md ≫= λ _, Ok ()
  | DarkSky => DarkSky_try md ≫= λ _, Ok ()
  | OpenWeather => OpenWeather_try md ≫= λ _, Ok ()
  end.

(** The values a list of assignments leaves, by key. *)
Definition assigned (fields : list (string * pyobj)) : gmap string pyobj :=
  foldl (λ m kv, <[kv.1 := kv.2]> m) ∅ fields.

(** [abs(x - y) < tol] *)
Definition is_close (x y tol : float) : bool := (abs (x - y) <? tol)%float.

(** A relation between the world before a statement and the world after
    it that the statement keeps, whatever its outcome. *)
Definition keeps {A} (R : relation world) (m : M A) : Prop := ∀ w, R w (m w).2.

(** The keys outside [K] hold what they held. *)
Definition same_outside (K : list string) : relation world :=
  λ w w', ∀ k, k ∉ K → metData w' !! k = metData w !! k.

Definition same_trace : relation world := λ w w', trace w' = trace w.

Definition is_KeyError {A} (r : res A) : bool :=
  match r with Raise KeyError => true | _ => false end.

(** The condition under which an extraction takes its [except] branch: the
    time zone is known and the [try] raises KeyError. *)
Definition unavailable (p : provider) (Config : config) (md : gmap string pyobj) : bool :=
  match pytz_timezone (Station_Timezone Config) with
  | Some _ => is_KeyError (found p md)
  | None => false
  end.

(** Position [j] holds the first period that starts after [t]. *)
Definition next_period (starts : list Z) (t : Z) (j : nat) (s : Z) : Prop :=
  starts !! j = Some s ∧ t < s ∧
  ∀ j' s', (j' < j)%nat → starts !! j' = Some s' → s' ≤ t.

(** A list or a dict cannot be the key of a dict: [ICONMAP.get] of one
    raises TypeError. *)
Definition unhashable (o : pyobj) : bool :=
  match o with PList _ | PDict _ => true | _ => false end.

(** * Properties *)

(** ** The results of expressions *)

Lemma bind_Ok {A B} (r : res A) (k : A → res B) (b : B) :
  r ≫= k = Ok b → ∃ a, r = Ok a ∧ k a = Ok b.
Proof. destruct r as [a|e]; [eauto | discriminate]. Qed.

Lemma mapM_Ok_length {A B} (f : A → res B) (l : list A) (k : list B) :
  mapM f l = Ok k → length k = length l.
Proof.
  revert k. induction l as [|x l IH]; intros k H; simpl in H.
  - by injection H as <-.
  - apply bind_Ok in H as (y & _ & H). apply bind_Ok in H as (k' & Hk & H).
    injection H as <-. simpl. f_equal. by apply IH.
Qed.

Lemma mapM_Ok_lookup {A B} (f : A → res B) (l : list A) (k : list B) i x :
  mapM f l = Ok k → l !! i = Some x → ∃ y, k !! i = Some y ∧ f x = Ok y.
Proof.
  revert k i. induction l as [|x' l IH]; intros k i H Hi; [done|].
  simpl in H. apply bind_Ok in H as (y & Hy & H).
  apply bind_Ok in H as (k' & Hk & H). injection H as <-.
  destruct i as [|i]; simpl in *.
  - injection Hi as <-. eauto.
  - eauto.
Qed.

(** ** bisect *)

Lemma is_sorted_lookup (l : list Z) (i j : nat) (a b : Z) :
  is_sorted l = true → (i ≤ j)%nat → l !! i = Some a → l !! j = Some b → a ≤ b.
Proof.
  revert i j a b. induction l as [|x l IH]; intros i j a b Hs Hij Hi Hj; [done|].
  assert (Hl : is_sorted l = true).
  { destruct l; [done|]. simpl in Hs. by apply andb_prop in Hs as [_ ?]. }
  assert (Hhd : ∀ k c, l !! k = Some c → x ≤ c).
  { clear i j a b Hij Hi Hj. intros k. induction k as [|k IHk]; intros c Hc.
    - destruct l as [|y l]; [done|]. simpl in Hs, Hc. injection Hc as <-.
      apply andb_prop in Hs as [? _]. lia.
    - destruct l as [|y l]; [done|]. simpl in Hc.
      assert (y ≤ c) by (apply (IH 0%nat (S k) y c); [done|lia|done|done]).
      simpl in Hs. apply andb_prop in Hs as [? _]. lia. }
  destruct i as [|i], j as [|j]; simpl in *; try lia.
  - injection Hi as <-. injection Hj as <-. lia.
  - injection Hi as <-. eauto.
  - eapply IH; [done| |done|done]. lia.
Qed.

(** On an ordered list of ints the loop keeps every element below [lo] at
    most [x] and every element from [hi] on above [x], and it ends within
    [hi - lo] turns. *)
Lemma bisect_loop_sorted (l : list Z) (x : Z) (fuel lo hi : nat) :
  is_sorted l = true →
  (lo ≤ hi)%nat → (hi ≤ length l)%nat → (hi - lo ≤ fuel)%nat →
  (∀ i a, (i < lo)%nat → l !! i = Some a → a ≤ x) →
  (∀ i a, (hi ≤ i)%nat → l !! i = Some a → x < a) →
  ∃ r, bisect_loop fuel (PInt <$> l) x lo hi = Ok r ∧ (lo ≤ r)%nat ∧ (r ≤ hi)%nat ∧
       (∀ i a, (i < r)%nat → l !! i = Some a → a ≤ x) ∧
       (∀ i a, (r ≤ i)%nat → l !! i = Some a → x < a).
Proof.
  intros Hs. revert lo hi.
  induction fuel as [|fuel IH]; intros lo hi Hlh Hhi Hf Hlo Hup; cbn [bisect_loop].
  - exists lo. repeat split; [lia|lia|done|]. intros i a ?. apply Hup. lia.
  - destruct (lo <? hi)%nat eqn:Hlt.
    2:{ apply Nat.ltb_ge in Hlt. exists lo. repeat split; [lia|lia|done|].
        intros i a ?. apply Hup. lia. }
    apply Nat.ltb_lt in Hlt.
    set (mid := ((lo + hi) / 2)%nat).
    assert (Hmid : (lo ≤ mid ∧ mid < hi)%nat).
    { subst mid. split.
      - apply Nat.div_le_lower_bound; lia.
      - apply Nat.Div0.div_lt_upper_bound; lia. }
    destruct (lookup_lt_is_Some_2 l mid) as [y Hy]; [lia|].
    fold mid. rewrite list_lookup_fmap, Hy. cbn [fmap option_fmap option_map py_lt_int mbind res_bind].
    destruct (x <? y) eqn:Hxy.
    + apply Z.ltb_lt in Hxy.
      destruct (IH lo mid) as (r & Hr & ? & ? & ? & ?); [lia|lia|lia|done| |].
      { intros i a Hi Ha. assert (y ≤ a) by (eapply (is_sorted_lookup l mid i); eauto). lia. }
      exists r. repeat split; [done|lia|lia|done|done].
    + apply Z.ltb_ge in Hxy.
      destruct (IH (mid + 1)%nat hi) as (r & Hr & ? & ? & ? & ?); [lia|lia|lia| |done|].
      { intros i a Hi Ha. assert (a ≤ y) by (eapply (is_sorted_lookup l i mid); eauto; lia). lia. }
      exists r. repeat split; [done|lia|lia|done|done].
Qed.

(** [bisect.bisect] on an ordered list of ints returns the rightmost
    insertion point: the elements before it are at most [x], those from it on
    are above [x]. *)
Lemma bisect_sorted (l : list Z) (x : Z) :
  is_sorted l = true →
  ∃ r : nat, bisect (PInt <$> l) x = Ok (Z.of_nat r) ∧ (r ≤ length l)%nat ∧
       (∀ i a, (i < r)%nat → l !! i = Some a → a ≤ x) ∧
       (∀ i a, (r ≤ i)%nat → l !! i = Some a → x < a).
Proof.
  intros Hs. unfold bisect. rewrite length_fmap.
  destruct (bisect_loop_sorted l x (length l) 0 (length l)) as (r & Hr & ? & ? & ? & ?);
    [done|lia|lia|lia| | |].
  - intros; lia.
  - intros i a Hi Ha. apply lookup_lt_Some in Ha. lia.
  - rewrite Hr. simpl. eauto 10.
Qed.

(** ** Statements *)

Lemma M_bind_unfold {A B} (m : M A) (k : A → M B) (w : world) :
  (m ≫= k) w =
  match m w with (Ok a, w') => k a w' | (Raise e, w') => (Raise e, w') end.
Proof. reflexivity. Qed.

(** What an extraction leaves alone: the raw data under ['Dict'] and the
    requests made so far; all it adds to the trace are retries after 600
    seconds. *)
Definition extract_frame (w w' : world) : Prop :=
  metData w' !! "Dict" = metData w !! "Dict" ∧
  ∃ n, trace w' = trace w ++ replicate n (ScheduleOnce 600).

Definition framed {A} (m : M A) : Prop := ∀ w, extract_frame w (m w).2.

Lemma extract_frame_refl w : extract_frame w w.
Proof. split; [done|]. exists 0%nat. simpl. by rewrite app_nil_r. Qed.

Lemma extract_frame_trans w1 w2 w3 :
  extract_frame w1 w2 → extract_frame w2 w3 → extract_frame w1 w3.
Proof.
  intros [H1 [n1 T1]] [H2 [n2 T2]]. split; [congruence|].
  exists (n1 + n2)%nat. rewrite T2, T1, <- app_assoc. f_equal.
  by rewrite replicate_add.
Qed.

Lemma framed_ret {A} (a : A) : framed (mret a).
Proof. intros w. apply extract_frame_refl. Qed.

Lemma framed_lift {A} (r : res A) : framed (lift r).
Proof. intros w. apply extract_frame_refl. Qed.

Lemma framed_reads {A} (f : gmap string pyobj → res A) : framed (reads f).
Proof. intros w. apply extract_frame_refl. Qed.

Lemma framed_setitem k v : k ≠ "Dict" → framed (setitem k v).
Proof.
  intros Hk w. split; simpl.
  - by rewrite lookup_insert_ne.
  - exists 0%nat. simpl. by rewrite app_nil_r.
Qed.

Lemma framed_emit : framed (emit (ScheduleOnce 600)).
Proof. intros w. split; [done|]. by exists 1%nat. Qed.

Lemma framed_bind {A B} (m : M A) (k : A → M B) :
  framed m → (∀ a, framed (k a)) → framed (m ≫= k).
Proof.
  intros Hm Hk w. rewrite M_bind_unfold. specialize (Hm w).
  destruct (m w) as [[a|e] w1]; simpl in *; [|done].
  eapply extract_frame_trans; [done|]. apply Hk.
Qed.

Lemma framed_try {A B} (body : M A) (handler : M B) (rest : A → M B) :
  framed body → framed handler → (∀ a, framed (rest a)) →
  framed (try_except_KeyError body handler rest).
Proof.
  intros Hb Hh Hr w. unfold try_except_KeyError. specialize (Hb w).
  destruct (body w) as [[a|e] w1]; simpl in *.
  - eapply extract_frame_trans; [done|]. apply Hr.
  - destruct e; try done. eapply extract_frame_trans; [done|]. apply Hh.
Qed.

Ltac framed :=
  repeat first
    [ apply framed_bind; [|intros ?]
    | apply framed_try; [| |intros ?]
    | apply framed_lift
    | apply framed_reads
    | apply framed_ret
    | apply framed_emit
    | apply framed_setitem; discriminate
    | match goal with |- framed (let '(_, _) := ?x in _) => destruct x end
    | progress cbv zeta ].

Lemma ExtractMetOffice_framed E Config : framed (ExtractMetOffice E Config).
Proof. unfold ExtractMetOffice. framed. Qed.

Lemma ExtractDarkSky_framed E Config : framed (ExtractDarkSky E Config).
Proof. unfold ExtractDarkSky. framed. Qed.

Lemma ExtractOpenWeather_framed E Config : framed (ExtractOpenWeather E Config).
Proof. unfold ExtractOpenWeather. framed. Qed.

(** ** Download *)

Lemma response_json_verified Data Field :
  verifyResponse Data Field = true → response_json Data = Ok (default PNone Data).
Proof. destruct Data as [j|]; [done|discriminate]. Qed.

(** The lines between the request and the extraction step (51-56, 67-72,
    82-87). *)
Lemma shape_check_run (p : provider) E (rest : M unit) (w : world) :
  (emit (HttpGet p);;
   (if verifyResponse (http E p) (top_level_key p) then
      j ← lift (response_json (http E p)); setitem "Dict" j
    else
      emit (ScheduleOnce 600);;
      c ← contains "Dict";
      if negb c then setitem "Dict" (PDict []) else mret ());;
   rest) w = rest (after_request p E w).
Proof.
  unfold after_request. rewrite !M_bind_unfold. cbn [emit].
  destruct (verifyResponse (http E p) (top_level_key p)) eqn:Hv.
  - rewrite !M_bind_unfold. cbn [lift]. rewrite (response_json_verified _ _ Hv).
    reflexivity.
  - rewrite !M_bind_unfold. cbn [emit contains metData trace].
    rewrite <- app_assoc. cbn [app].
    destruct (metData w !! "Dict") as [d|] eqn:Hd;
      rewrite M_bind_unfold; cbn [contains metData trace]; rewrite Hd.
    + rewrite bool_decide_eq_true_2 by eauto. reflexivity.
    + rewrite bool_decide_eq_false_2 by (by intros [? ?]). reflexivity.
Qed.

Lemma Download_GB E Config w :
  Station_Country Config = "GB" →
  Download E Config w = ExtractMetOffice E Config (after_request MetOffice E w).
Proof.
  intros HC. unfold Download. rewrite HC. cbn [String.eqb Ascii.eqb Bool.eqb].
  apply (shape_check_run MetOffice).
Qed.

Lemma Download_DarkSky E Config w :
  Station_Country Config ≠ "GB" → Keys_DarkSky Config ≠ "" →
  Download E Config w = ExtractDarkSky E Config (after_request DarkSky E w).
Proof.
  intros HC HK. unfold Download, truthy.
  apply String.eqb_neq in HC, HK. rewrite HC, HK. cbn [negb].
  apply (shape_check_run DarkSky).
Qed.

Lemma Download_OpenWeather E Config w :
  Station_Country Config ≠ "GB" → Keys_DarkSky Config = "" →
  Keys_OpenWeather Config ≠ "" →
  Download E Config w = ExtractOpenWeather E Config (after_request OpenWeather E w).
Proof.
  intros HC HD HK. unfold Download, truthy.
  apply String.eqb_neq in HC, HK. rewrite HC, HD, HK. cbn [negb String.eqb].
  apply (shape_check_run OpenWeather).
Qed.

Lemma requests_app t1 t2 : requests (t1 ++ t2) = requests t1 ++ requests t2.
Proof. apply omap_app. Qed.

Lemma requests_retries n : requests (replicate n (ScheduleOnce 600)) = [].
Proof. induction n; [done|]. simpl. done. Qed.

Lemma requests_after_request p E w :
  requests (trace (after_request p E w)) = requests (trace w) ++ [p].
Proof.
  unfold after_request.
  destruct (verifyResponse _ _); cbn [trace]; by rewrite requests_app.
Qed.

Lemma framed_requests {A} (m : M A) p E w :
  framed m →
  requests (trace (m (after_request p E w)).2) = requests (trace w) ++ [p].
Proof.
  intros Hm. destruct (Hm (after_request p E w)) as [_ [n ->]].
  by rewrite requests_app, requests_retries, app_nil_r, requests_after_request.
Qed.

(** C1: [Download] takes the MetOffice path when the station's country is
    'GB', whatever the keys are; otherwise the DarkSky path when the DarkSky
    key is set; otherwise the OpenWeather path when the OpenWeather key is
    set. On each path it runs that provider's extraction on the world left
    by the request, and the run makes exactly one request, to that
    provider. *)
Theorem Download_provider_priority E Config w :
  (Station_Country Config = "GB" →
     Download E Config w = ExtractMetOffice E Config (after_request MetOffice E w) ∧
     requests (trace (Download E Config w).2) = requests (trace w) ++ [MetOffice]) ∧
  (Station_Country Config ≠ "GB" → Keys_DarkSky Config = "" →
   Keys_OpenWeather Config ≠ "" →
     Download E Config w = ExtractOpenWeather E Config (after_request OpenWeather E w) ∧
     requests (trace (Download E Config w).2) = requests (trace w) ++ [OpenWeather]) ∧
  (Station_Country Config ≠ "GB" → Keys_DarkSky Config ≠ "" →
     Download E Config w = ExtractDarkSky E Config (after_request DarkSky E w) ∧
     requests (trace (Download E Config w).2) = requests (trace w) ++ [DarkSky]).
Proof.
  split; [|split].
  - intros HC. rewrite (Download_GB _ _ _ HC). split; [done|].
    apply framed_requests, ExtractMetOffice_framed.
  - intros HC HD HK. rewrite (Download_OpenWeather _ _ _ HC HD HK). split; [done|].
    apply framed_requests, ExtractOpenWeather_framed.
  - intros HC HD. rewrite (Download_DarkSky _ _ _ HC HD). split; [done|].
    apply framed_requests, ExtractDarkSky_framed.
Qed.

(** C10: with a country other than 'GB' and neither key configured,
    [Download] runs no branch: it returns with the dictionary and the trace
    as they were, so with no field changed, no request made and no retry
    scheduled. *)
Theorem Download_no_provider E Config w :
  Station_Country Config ≠ "GB" →
  Keys_DarkSky Config = "" → Keys_OpenWeather Config = "" →
  Download E Config w = (Ok (), w).
Proof.
  intros HC HD HO. unfold Download, truthy.
  apply String.eqb_neq in HC. rewrite HC, HD, HO. reflexivity.
Qed.

Lemma Download_selected E Config w p :
  selects Config p →
  Download E Config w = Extract p E Config (after_request p E w).
Proof.
  destruct p; simpl.
  - apply Download_GB.
  - intros [? ?]. by apply Download_DarkSky.
  - intros (? & ? & ?). by apply Download_OpenWeather.
Qed.

Lemma Extract_framed p E Config : framed (Extract p E Config).
Proof.
  destruct p; [apply ExtractMetOffice_framed | apply ExtractDarkSky_framed
              | apply ExtractOpenWeather_framed].
Qed.

Lemma after_request_failed p E w :
  verifyResponse (http E p) (top_level_key p) = false →
  after_request p E w = after_failed_check p w.
Proof. intros Hv. unfold after_request. by rewrite Hv. Qed.

Lemma after_failed_check_Dict p w :
  metData (after_failed_check p w) !! "Dict" =
  Some (default (PDict []) (metData w !! "Dict")).
Proof.
  unfold after_failed_check. cbn [metData].
  destruct (metData w !! "Dict") as [d|] eqn:Hd; [done|].
  by rewrite lookup_insert_eq.
Qed.

(** C4: when the response fails the shape check, [Download] keeps the raw
    data cached under ['Dict'] (an empty dict when there is none), schedules
    a retry after 600 seconds and still runs the provider's extraction, on
    that cached or empty raw data; the extraction leaves ['Dict'] as it
    found it and adds nothing to the trace but retries after 600 seconds. *)
Theorem Download_failed_shape_check E Config w p :
  selects Config p →
  verifyResponse (http E p) (top_level_key p) = false →
  Download E Config w = Extract p E Config (after_failed_check p w) ∧
  metData (after_failed_check p w) !! "Dict" =
    Some (default (PDict []) (metData w !! "Dict")) ∧
  metData (Download E Config w).2 !! "Dict" =
    Some (default (PDict []) (metData w !! "Dict")) ∧
  ∃ n, trace (Download E Config w).2 =
       trace w ++ HttpGet p :: ScheduleOnce 600 :: replicate n (ScheduleOnce 600).
Proof.
  intros Hs Hv.
  rewrite (Download_selected _ _ _ _ Hs), (after_request_failed _ _ _ Hv).
  destruct (Extract_framed p E Config (after_failed_check p w)) as [HD [n HT]].
  repeat split.
  - apply after_failed_check_Dict.
  - rewrite HD. apply after_failed_check_Dict.
  - exists n. rewrite HT. cbn [after_failed_check trace].
    by rewrite <- app_assoc.
Qed.

(** ** The [except KeyError] branch *)

Lemma ExtractMetOffice_unavailable E Config w Tz :
  pytz_timezone (Station_Timezone Config) = Some Tz →
  MetOffice_try (metData w) = Raise KeyError →
  ExtractMetOffice E Config w = (Ok (), blanked (now E Tz) w).
Proof.
  intros HTz Htry. unfold ExtractMetOffice, timezone. rewrite HTz.
  rewrite M_bind_unfold. cbn [lift].
  unfold try_except_KeyError, reads. rewrite Htry. reflexivity.
Qed.

Lemma ExtractDarkSky_unavailable E Config w Tz :
  pytz_timezone (Station_Timezone Config) = Some Tz →
  DarkSky_try (metData w) = Raise KeyError →
  ExtractDarkSky E Config w = (Ok (), blanked (now E Tz) w).
Proof.
  intros HTz Htry. unfold ExtractDarkSky, timezone. rewrite HTz.
  do 2 (rewrite M_bind_unfold; cbn [lift]).
  unfold try_except_KeyError, reads. rewrite Htry. reflexivity.
Qed.

Lemma ExtractOpenWeather_unavailable E Config w Tz :
  pytz_timezone (Station_Timezone Config) = Some Tz →
  OpenWeather_try (metData w) = Raise KeyError →
  ExtractOpenWeather E Config w = (Ok (), blanked (now E Tz) w).
Proof.
  intros HTz Htry. unfold ExtractOpenWeather, timezone. rewrite HTz.
  rewrite M_bind_unfold. cbn [lift].
  unfold try_except_KeyError, reads. rewrite Htry. reflexivity.
Qed.

(** ** Runs that populate the fields *)

(** One statement of a run that ended normally: an expression that raised
    nothing, or an assignment. *)
Ltac run_step H :=
  rewrite M_bind_unfold in H; cbn [lift setitem emit metData trace] in H;
  try lazymatch type of H with
      | match ?r with Ok _ => _ | Raise _ => _ end = _ =>
          let a := fresh "a" in let E := fresh "E" in
          destruct r as [a|?] eqn:E; [|discriminate H]
      end.

(** The same statements in another world, the expressions giving the results
    recorded in the context. *)
Ltac replay :=
  repeat (rewrite M_bind_unfold; cbn [lift setitem emit metData trace];
          try match goal with
              | Heq : ?r = Ok _ |- context [match ?r with Ok _ => _ | Raise _ => _ end] =>
                  rewrite Heq
              end).

(** A run of [ExtractMetOffice] that found the raw data and returned has
    assigned the nine fields, from the report [rep] of the current period;
    in any world with the same raw data it assigns the same values. *)
Lemma ExtractMetOffice_populates E Config w w' Issued metDict :
  MetOffice_try (metData w) = Ok (Issued, metDict) →
  ExtractMetOffice E Config w = (Ok (), w') →
  ∃ Tz today rep Valid Pp W v vTemp vWindDir vWindSpd,
    pytz_timezone (Station_Timezone Config) = Some Tz ∧
    MetOffice_today metDict (now E Tz) = Ok today ∧
    MetOffice_period today (now E Tz) = Ok (rep, Valid) ∧
    getitem_str rep "Pp" = Ok Pp ∧ getitem_str rep "W" = Ok W ∧
    format_f 2 0 (PInt Valid) = Ok v ∧
    ∀ w2, MetOffice_try (metData w2) = Ok (Issued, metDict) →
      ExtractMetOffice E Config w2 =
      (Ok (), written [("Time", PDatetime (now E Tz)); ("Issued", PStr Issued);
                       ("Valid", PStr (v +:+ ":00")); ("Temp", vTemp);
                       ("WindDir", vWindDir); ("WindSpd", vWindSpd);
                       ("Weather", W); ("Precip", Pp);
                       ("Source", PStr "MetOffice")] w2).
Proof.
  intros Htry H. unfold ExtractMetOffice, timezone in H.
  destruct (pytz_timezone (Station_Timezone Config)) as [Tz|] eqn:HTz; [|discriminate H].
  rewrite M_bind_unfold in H. cbn [lift] in H.
  unfold try_except_KeyError, reads in H. rewrite Htry in H.
  do 2 run_step H. destruct a0 as [rep Valid].
  repeat run_step H.
  match goal with
  | HD : getitem_int (PList [_; PStr "cardinal"]) 0 = Ok ?d,
    HP : getitem_int (PList [_; PStr "%"]) 0 = Ok ?q |- _ =>
      assert (HD' := HD); assert (HP' := HP);
      cbv in HD', HP'; injection HD' as <-; injection HP' as <-
  end.
  do 10 eexists. repeat (split; [eassumption || reflexivity|]).
  intros w2 H2. unfold ExtractMetOffice, timezone. rewrite HTz.
  rewrite M_bind_unfold. cbn [lift].
  unfold try_except_KeyError, reads. rewrite H2.
  replay. reflexivity.
Qed.

(** The same for [ExtractDarkSky], from the entry of the current hour. *)
Lemma ExtractDarkSky_populates E Config w w' metDict :
  DarkSky_try (metData w) = Ok metDict →
  ExtractDarkSky E Config w = (Ok (), w') →
  ∃ Tz entry Issued Valid P P100 p icon S mps uWind vTemp vWindDir vWindSpd,
    pytz_timezone (Station_Timezone Config) = Some Tz ∧
    hourly_period "time" E Tz metDict = Ok (entry, Issued, Valid) ∧
    getitem_str entry "precipProbability" = Ok P ∧ py_mul_100 P = Ok P100 ∧
    format_f 0 0 P100 = Ok p ∧ getitem_str entry "icon" = Ok icon ∧
    getitem_str entry "windSpeed" = Ok S ∧ DarkSky_wind_mps S = Ok mps ∧
    Units (PList [mps; PStr "mps"]) (Units_Wind Config) = Ok uWind ∧
    ∀ w2, DarkSky_try (metData w2) = Ok metDict →
      ExtractDarkSky E Config w2 =
      (Ok (), written [("Time", PDatetime (now E Tz));
                       ("Issued", PStr (strftime_HM Issued));
                       ("Valid", PStr (strftime_HM Valid)); ("Temp", vTemp);
                       ("WindDir", vWindDir); ("WindSpd", vWindSpd);
                       ("Precip", PStr p); ("Source", PStr "DarkSky");
                       ("Weather", PStr (DarkSky_icon icon))] w2).
Proof.
  intros Htry H. unfold ExtractDarkSky, timezone in H.
  destruct (pytz_timezone (Station_Timezone Config)) as [Tz|] eqn:HTz; [|discriminate H].
  do 2 (rewrite M_bind_unfold in H; cbn [lift] in H).
  unfold try_except_KeyError, reads in H. rewrite Htry in H.
  run_step H. destruct a as [[entry Issued] Valid].
  repeat run_step H.
  match goal with
  | HP : getitem_int (PList [_; PStr "%"]) 0 = Ok ?q |- _ =>
      assert (HP' := HP); cbv in HP'; injection HP' as <-
  end.
  do 14 eexists. repeat (split; [eassumption || reflexivity|]).
  intros w2 H2. unfold ExtractDarkSky, timezone. rewrite HTz.
  do 2 (rewrite M_bind_unfold; cbn [lift]).
  unfold try_except_KeyError, reads. rewrite H2.
  replay. reflexivity.
Qed.

(** The same for [ExtractOpenWeather]. *)
Lemma ExtractOpenWeather_populates E Config w w' metDict :
  OpenWeather_try (metData w) = Ok metDict →
  ExtractOpenWeather E Config w = (Ok (), w') →
  ∃ Tz entry Issued Valid weather first icon code S mps uWind vTemp vWindDir vWindSpd,
    pytz_timezone (Station_Timezone Config) = Some Tz ∧
    hourly_period "dt" E Tz metDict = Ok (entry, Issued, Valid) ∧
    getitem_str entry "wind_speed" = Ok S ∧ OpenWeather_wind_mps S = Ok mps ∧
    Units (PList [mps; PStr "mps"]) (Units_Wind Config) = Ok uWind ∧
    getitem_str entry "weather" = Ok weather ∧ getitem_int weather 0 = Ok first ∧
    getitem_str first "icon" = Ok icon ∧
    table_get_default ICONMAP icon "ForecastUnavailable" = Ok code ∧
    ∀ w2, OpenWeather_try (metData w2) = Ok metDict →
      ExtractOpenWeather E Config w2 =
      (Ok (), written [("Time", PDatetime (now E Tz));
                       ("Issued", PStr (strftime_HM Issued));
                       ("Valid", PStr (strftime_HM Valid)); ("Temp", vTemp);
                       ("WindDir", vWindDir); ("WindSpd", vWindSpd);
                       ("Precip", PStr "--"); ("Source", PStr "OpenWeather");
                       ("Weather", PStr code)] w2).
Proof.
  intros Htry H. unfold ExtractOpenWeather, timezone in H.
  destruct (pytz_timezone (Station_Timezone Config)) as [Tz|] eqn:HTz; [|discriminate H].
  rewrite M_bind_unfold in H; cbn [lift] in H.
  unfold try_except_KeyError, reads in H. rewrite Htry in H.
  run_step H. destruct a as [[entry Issued] Valid].
  repeat run_step H.
  do 14 eexists. repeat (split; [eassumption || reflexivity|]).
  intros w2 H2. unfold ExtractOpenWeather, timezone. rewrite HTz.
  rewrite M_bind_unfold; cbn [lift].
  unfold try_except_KeyError, reads. rewrite H2.
  replay. reflexivity.
Qed.

(** ** The current period of the MetOffice forecast *)

Lemma list_getitem_nat {A} (l : list A) (i : nat) (x : A) :
  l !! i = Some x → list_getitem l (Z.of_nat i) = Ok x.
Proof.
  intros Hi. unfold list_getitem, index_norm.
  pose proof (lookup_lt_Some _ _ _ Hi).
  replace (Z.of_nat i <? 0) with false by (symmetry; apply Z.ltb_ge; lia).
  replace (0 <=? Z.of_nat i) with true by (symmetry; apply Z.leb_le; lia).
  replace (Z.of_nat i <? Z.of_nat (length l)) with true
    by (symmetry; apply Z.ltb_lt; lia).
  cbn [andb]. by rewrite Nat2Z.id, Hi.
Qed.

(** On reports whose start hours are ordered and of which one starts at or
    before the current hour, lines 136-142 select the latest such report. *)
Lemma MetOffice_period_latest (reps : list pyobj) (starts : list Z) (Now : datetime) :
  mapM period_start reps = Ok starts →
  is_sorted starts = true →
  (∃ i s, starts !! i = Some s ∧ s ≤ dt_hour Now) →
  ∃ j rep s, reps !! j = Some rep ∧ latest_period starts (dt_hour Now) j s ∧
    MetOffice_period (PList reps) Now = Ok (rep, valid_until s).
Proof.
  intros Hm Hs (i & s0 & Hi & Hle).
  destruct (bisect_sorted starts (dt_hour Now) Hs) as (r & Hr & Hlen & Hlo & Hup).
  assert (Hir : (i < r)%nat).
  { destruct (decide (i < r)%nat) as [|Hn]; [done|].
    assert (dt_hour Now < s0) by (apply (Hup i); [lia|done]). lia. }
  destruct (lookup_lt_is_Some_2 starts (r - 1)) as [s Hj]; [lia|].
  pose proof (mapM_Ok_length _ _ _ Hm) as Hlen'.
  destruct (lookup_lt_is_Some_2 reps (r - 1)) as [rep Hrep]; [lia|].
  exists (r - 1)%nat, rep, s. split; [done|]. split.
  - split; [done|]. split.
    + apply (Hlo (r - 1)%nat); [lia|done].
    + intros j' s' Hj' Hs'. apply (Hup j'); [lia|done].
  - unfold MetOffice_period. cbn [py_iter mbind res_bind]. rewrite Hm.
    cbn [mbind res_bind]. rewrite Hr. cbn [mbind res_bind getitem_int].
    replace (Z.of_nat r - 1) with (Z.of_nat (r - 1)) by lia.
    rewrite (list_getitem_nat _ _ _ Hrep). cbn [mbind res_bind].
    rewrite (list_getitem_nat _ _ _ Hj). reflexivity.
Qed.

(** ['{:02.0f}'.format(v)] for an hour count: two digits, zero-padded. *)
Lemma format_hour (v : Z) : 0 ≤ v < 100 → format_f 2 0 (PInt v) = Ok (zpad 2 v).
Proof.
  intros Hv.
  assert (Hall : forallb (λ n : nat,
            match format_f 2 0 (PInt (Z.of_nat n)) with
            | Ok t => String.eqb t (zpad 2 (Z.of_nat n))
            | Raise _ => false
            end) (seq 0 100) = true) by (vm_compute; reflexivity).
  rewrite forallb_forall in Hall.
  specialize (Hall (Z.to_nat v)). rewrite Z2Nat.id in Hall by lia.
  destruct (format_f 2 0 (PInt v)) as [t|e].
  - f_equal. apply String.eqb_eq, Hall, in_seq. lia.
  - exfalso. enough (false = true) by discriminate. apply Hall, in_seq. lia.
Qed.

Lemma lookup_written_last fields k v w :
  metData (written (fields ++ [(k, v)]) w) !! k = Some v.
Proof.
  unfold written. cbn [metData]. rewrite foldl_app. cbn [foldl fst snd].
  apply lookup_insert_eq.
Qed.

(** The value that a run left under a key of [written]. *)
Ltac lookup_written :=
  unfold written; cbn [foldl metData fst snd];
  repeat (rewrite lookup_insert_ne by discriminate);
  rewrite ?lookup_insert_eq.

Lemma valid_until_range (s : Z) : 0 ≤ s < 24 → 0 ≤ valid_until s < 100.
Proof. unfold valid_until. destruct (s + 3 =? 24); lia. Qed.

Lemma latest_period_three_hourly (hour : Z) (j : nat) (s : Z) :
  latest_period [0; 3; 6; 9; 12; 15; 18; 21] hour j s →
  (hour = 14 → s = 12) ∧ (hour = 23 → s = 21).
Proof.
  intros (Hj & Hle & Hup).
  assert (H4 := Hup 4%nat 12). assert (H7 := Hup 7%nat 21).
  do 8 (destruct j as [|j];
        [injection Hj as <-; split; intros ->;
         first [ reflexivity
               | exfalso; lia
               | exfalso; specialize (H4 ltac:(lia) eq_refl); lia
               | exfalso; specialize (H7 ltac:(lia) eq_refl); lia ]|]).
  discriminate Hj.
Qed.

(** C6: for a payload whose reports of today have ordered start hours
    within the day, one of them at or before the current local hour, the
    extraction selects the latest report that starts at or before the
    current hour (index: the rightmost insertion point minus one) and stores
    under 'Valid' its start plus 3 hours, 24 wrapped to 0, as two digits and
    ':00'. For the starts 0, 3, ..., 21 this is the period from 12 with
    '15:00' at hour 14, and '00:00' at hour 23. *)
Theorem MetOffice_current_period E Config Tz w w' Issued metDict reps starts :
  pytz_timezone (Station_Timezone Config) = Some Tz →
  MetOffice_try (metData w) = Ok (Issued, metDict) →
  MetOffice_today metDict (now E Tz) = Ok (PList reps) →
  mapM period_start reps = Ok starts →
  is_sorted starts = true →
  (∀ i s, starts !! i = Some s → 0 ≤ s < 24) →
  (∃ i s, starts !! i = Some s ∧ s ≤ dt_hour (now E Tz)) →
  ∃ j rep s,
    reps !! j = Some rep ∧ latest_period starts (dt_hour (now E Tz)) j s ∧
    MetOffice_period (PList reps) (now E Tz) = Ok (rep, valid_until s) ∧
    (ExtractMetOffice E Config w = (Ok (), w') →
     metData w' !! "Valid" = Some (PStr (zpad 2 (valid_until s) +:+ ":00"))) ∧
    (starts = [0; 3; 6; 9; 12; 15; 18; 21] → dt_hour (now E Tz) = 14 →
     s = 12 ∧ zpad 2 (valid_until s) +:+ ":00" = "15:00") ∧
    (starts = [0; 3; 6; 9; 12; 15; 18; 21] → dt_hour (now E Tz) = 23 →
     s = 21 ∧ zpad 2 (valid_until s) +:+ ":00" = "00:00").
Proof.
  intros HTz Htry Htoday Hm Hs Hday Hex.
  destruct (MetOffice_period_latest reps starts (now E Tz) Hm Hs Hex)
    as (j & rep & s & Hrep & Hlatest & Hperiod).
  exists j, rep, s. split; [done|]. split; [done|]. split; [done|].
  split; [|split].
  - intros Hrun.
    destruct (ExtractMetOffice_populates _ _ _ _ _ _ Htry Hrun)
      as (Tz' & today & rep' & Valid & Pp & W & v & vT & vD & vS
          & HTz' & Htoday' & Hperiod' & _ & _ & Hv & Hw).
    rewrite HTz in HTz'. injection HTz' as <-.
    rewrite Htoday in Htoday'. injection Htoday' as <-.
    rewrite Hperiod in Hperiod'. injection Hperiod' as <- <-.
    rewrite format_hour in Hv
      by (destruct Hlatest as (Hj & _); eapply valid_until_range, Hday, Hj).
    injection Hv as <-.
    specialize (Hw w Htry). rewrite Hrun in Hw. injection Hw as ->.
    by lookup_written.
  - intros -> Hh. rewrite Hh in Hlatest.
    destruct (latest_period_three_hourly _ _ _ Hlatest) as [-> _]; done.
  - intros -> Hh. rewrite Hh in Hlatest.
    destruct (latest_period_three_hourly _ _ _ Hlatest) as [_ ->]; done.
Qed.

(** ** Icons *)

Lemma table_get_None (t : list (string * string)) (k : string) :
  k ∉ t.*1 → table_get t k = None.
Proof.
  induction t as [|[k' v] t IH]; [done|]. cbn [fmap list_fmap fst table_get].
  rewrite not_elem_of_cons. intros [Hk Ht].
  apply not_eq_sym, String.eqb_neq in Hk. rewrite Hk. by apply IH.
Qed.

Lemma DarkSky_icon_other (s : string) :
  s ∉ DarkSky_table.*1 → DarkSky_icon (PStr s) = "ForecastUnavailable".
Proof.
  cbn [DarkSky_table fmap list_fmap fst]. rewrite !not_elem_of_cons.
  intros (?&?&?&?&?&?&?&?&?&?&_). unfold DarkSky_icon, py_eq_str.
  by repeat (rewrite (proj2 (String.eqb_neq _ _)) by done).
Qed.

Lemma DarkSky_icon_not_str (o : pyobj) :
  (∀ s, o ≠ PStr s) → DarkSky_icon o = "ForecastUnavailable".
Proof. destruct o; try done. intros H. by destruct (H s). Qed.

(** C7: the icon mappings of the two commercial providers are the documented
    tables; a value that is not a key of the table, a string or not, gives
    'ForecastUnavailable' (for OpenWeather a list or a dict is no code: it
    cannot be looked up, and [ICONMAP.get] raises TypeError); and the
    MetOffice's code is stored unchanged. What is mapped is the icon of the
    entry or report selected at the current time in the station's time zone,
    and the result is what the run stores under 'Weather'. *)
Theorem icon_mapping E Config w w' :
  Forall (λ kv, DarkSky_icon (PStr kv.1) = kv.2) DarkSky_table ∧
  (∀ o, (∀ s, o = PStr s → s ∉ DarkSky_table.*1) →
        DarkSky_icon o = "ForecastUnavailable") ∧
  ICONMAP = OpenWeather_table ∧
  Forall (λ kv, table_get_default ICONMAP (PStr kv.1) "ForecastUnavailable" = Ok kv.2)
         OpenWeather_table ∧
  (∀ o, (∀ s, o = PStr s → s ∉ OpenWeather_table.*1) →
        table_get_default ICONMAP o "ForecastUnavailable" =
        if unhashable o then Raise TypeError else Ok "ForecastUnavailable") ∧
  (∀ metDict, DarkSky_try (metData w) = Ok metDict →
     ExtractDarkSky E Config w = (Ok (), w') →
     ∃ Tz entry Issued Valid icon,
       pytz_timezone (Station_Timezone Config) = Some Tz ∧
       hourly_period "time" E Tz metDict = Ok (entry, Issued, Valid) ∧
       getitem_str entry "icon" = Ok icon ∧
       metData w' !! "Weather" = Some (PStr (DarkSky_icon icon))) ∧
  (∀ metDict, OpenWeather_try (metData w) = Ok metDict →
     ExtractOpenWeather E Config w = (Ok (), w') →
     ∃ Tz entry Issued Valid weather first icon code,
       pytz_timezone (Station_Timezone Config) = Some Tz ∧
       hourly_period "dt" E Tz metDict = Ok (entry, Issued, Valid) ∧
       getitem_str entry "weather" = Ok weather ∧
       getitem_int weather 0 = Ok first ∧ getitem_str first "icon" = Ok icon ∧
       table_get_default ICONMAP icon "ForecastUnavailable" = Ok code ∧
       metData w' !! "Weather" = Some (PStr code)) ∧
  (∀ Issued metDict, MetOffice_try (metData w) = Ok (Issued, metDict) →
     ExtractMetOffice E Config w = (Ok (), w') →
     ∃ Tz today rep Valid W,
       pytz_timezone (Station_Timezone Config) = Some Tz ∧
       MetOffice_today metDict (now E Tz) = Ok today ∧
       MetOffice_period today (now E Tz) = Ok (rep, Valid) ∧
       getitem_str rep "W" = Ok W ∧ metData w' !! "Weather" = Some W).
Proof.
  split; [by repeat constructor|].
  split.
  { intros o Ho. destruct o; try reflexivity. by apply DarkSky_icon_other, Ho. }
  split; [reflexivity|]. split; [by repeat constructor|].
  split.
  { intros o Ho. destruct o; try reflexivity.
    cbn [table_get_default unhashable]. by rewrite table_get_None by by apply Ho. }
  split; [|split].
  - intros metDict Htry Hrun.
    destruct (ExtractDarkSky_populates _ _ _ _ _ Htry Hrun)
      as (Tz & entry & Issued & Valid & P & P100 & p & icon & S & mps & uW
          & vT & vD & vS & HTz & Hp & _ & _ & _ & Hi & _ & _ & _ & Hw).
    specialize (Hw w Htry). rewrite Hrun in Hw. injection Hw as ->.
    exists Tz, entry, Issued, Valid, icon. repeat split; [done|done|done|].
    by lookup_written.
  - intros metDict Htry Hrun.
    destruct (ExtractOpenWeather_populates _ _ _ _ _ Htry Hrun)
      as (Tz & entry & Issued & Valid & weather & first & icon & code & S & mps
          & uW & vT & vD & vS & HTz & Hp & _ & _ & _ & H1 & H2 & H3 & H4 & Hw).
    specialize (Hw w Htry). rewrite Hrun in Hw. injection Hw as ->.
    exists Tz, entry, Issued, Valid, weather, first, icon, code.
    repeat split; [done|done|done|done|done|done|]. by lookup_written.
  - intros Issued metDict Htry Hrun.
    destruct (ExtractMetOffice_populates _ _ _ _ _ _ Htry Hrun)
      as (Tz & today & rep & Valid & Pp & W & v & vT & vD & vS
          & HTz & Ht & Hp & _ & HW & _ & Hw).
    specialize (Hw w Htry). rewrite Hrun in Hw. injection Hw as ->.
    exists Tz, today, rep, Valid, W. repeat split; [done|done|done|done|].
    by lookup_written.
Qed.

(** ** Precipitation and wind speed *)

(** C9, as the code has it: an extraction that finds the raw data and
    returns has stored, for the MetOffice, the 'Pp' of the report selected at
    the current time in the station's time zone under 'Precip'; for DarkSky,
    the selected entry's 'precipProbability' times 100 formatted with no
    decimals; and for OpenWeather '--', whatever the entry holds. *)
Theorem Precip_field E Config w w' :
  (∀ Issued metDict, MetOffice_try (metData w) = Ok (Issued, metDict) →
     ExtractMetOffice E Config w = (Ok (), w') →
     ∃ Tz today rep Valid Pp,
       pytz_timezone (Station_Timezone Config) = Some Tz ∧
       MetOffice_today metDict (now E Tz) = Ok today ∧
       MetOffice_period today (now E Tz) = Ok (rep, Valid) ∧
       getitem_str rep "Pp" = Ok Pp ∧ metData w' !! "Precip" = Some Pp) ∧
  (∀ metDict, DarkSky_try (metData w) = Ok metDict →
     ExtractDarkSky E Config w = (Ok (), w') →
     ∃ Tz entry Issued Valid P P100 p,
       pytz_timezone (Station_Timezone Config) = Some Tz ∧
       hourly_period "time" E Tz metDict = Ok (entry, Issued, Valid) ∧
       getitem_str entry "precipProbability" = Ok P ∧
       py_mul_100 P = Ok P100 ∧ format_f 0 0 P100 = Ok p ∧
       metData w' !! "Precip" = Some (PStr p)) ∧
  (∀ metDict, OpenWeather_try (metData w) = Ok metDict →
     ExtractOpenWeather E Config w = (Ok (), w') →
     metData w' !! "Precip" = Some (PStr "--")).
Proof.
  split; [|split].
  - intros Issued metDict Htry Hrun.
    destruct (ExtractMetOffice_populates _ _ _ _ _ _ Htry Hrun)
      as (Tz & today & rep & Valid & Pp & W & v & vT & vD & vS
          & HTz & Ht & Hp & HPp & _ & _ & Hw).
    specialize (Hw w Htry). rewrite Hrun in Hw. injection Hw as ->.
    exists Tz, today, rep, Valid, Pp. repeat split; [done|done|done|done|].
    by lookup_written.
  - intros metDict Htry Hrun.
    destruct (ExtractDarkSky_populates _ _ _ _ _ Htry Hrun)
      as (Tz & entry & Issued & Valid & P & P100 & p & icon & S & mps & uW
          & vT & vD & vS & HTz & Hp & HP & H100 & Hf & _ & _ & _ & _ & Hw).
    specialize (Hw w Htry). rewrite Hrun in Hw. injection Hw as ->.
    exists Tz, entry, Issued, Valid, P, P100, p.
    repeat split; [done|done|done|done|done|]. by lookup_written.
  - intros metDict Htry Hrun.
    destruct (ExtractOpenWeather_populates _ _ _ _ _ Htry Hrun)
      as (Tz & entry & Issued & Valid & weather & first & icon & code & S & mps
          & uW & vT & vD & vS & _ & _ & _ & _ & _ & _ & _ & _ & _ & Hw).
    specialize (Hw w Htry). rewrite Hrun in Hw. injection Hw as ->.
    by lookup_written.
Qed.

(** C8, as the code has it: the DarkSky branch divides the raw wind speed by
    2.2369362920544, which takes 10 to 4.4704 within 1e-6; the OpenWeather
    branch multiplies it by 0.2778, which takes 10 to 2.778. In both the
    result is what is handed to [observation.Units]. *)
Theorem wind_speed_conversion E Config w w' :
  (∀ f, DarkSky_wind_mps (PFloat f) = Ok (PFloat (f / 2.2369362920544)%float)) ∧
  (∃ f, DarkSky_wind_mps (PInt 10) = Ok (PFloat f) ∧
        DarkSky_wind_mps (PFloat 10) = Ok (PFloat f) ∧
        is_close f 4.4704 1e-6 = true) ∧
  (∀ f, OpenWeather_wind_mps (PFloat f) = Ok (PFloat (f * 0.2778)%float)) ∧
  (∃ f, OpenWeather_wind_mps (PInt 10) = Ok (PFloat f) ∧
        OpenWeather_wind_mps (PFloat 10) = Ok (PFloat f) ∧
        is_close f 2.778 1e-6 = true) ∧
  (∀ metDict, DarkSky_try (metData w) = Ok metDict →
     ExtractDarkSky E Config w = (Ok (), w') →
     ∃ Tz entry Issued Valid S mps uWind,
       hourly_period "time" E Tz metDict = Ok (entry, Issued, Valid) ∧
       getitem_str entry "windSpeed" = Ok S ∧ DarkSky_wind_mps S = Ok mps ∧
       Units (PList [mps; PStr "mps"]) (Units_Wind Config) = Ok uWind) ∧
  (∀ metDict, OpenWeather_try (metData w) = Ok metDict →
     ExtractOpenWeather E Config w = (Ok (), w') →
     ∃ Tz entry Issued Valid S mps uWind,
       hourly_period "dt" E Tz metDict = Ok (entry, Issued, Valid) ∧
       getitem_str entry "wind_speed" = Ok S ∧ OpenWeather_wind_mps S = Ok mps ∧
       Units (PList [mps; PStr "mps"]) (Units_Wind Config) = Ok uWind).
Proof.
  split; [done|]. split; [eexists; by vm_compute|].
  split; [done|]. split; [eexists; by vm_compute|]. split.
  - intros metDict Htry Hrun.
    destruct (ExtractDarkSky_populates _ _ _ _ _ Htry Hrun)
      as (Tz & entry & Issued & Valid & P & P100 & p & icon & S & mps & uW
          & vT & vD & vS & _ & Hp & _ & _ & _ & _ & HS & Hm & HU & _).
    by exists Tz, entry, Issued, Valid, S, mps, uW.
  - intros metDict Htry Hrun.
    destruct (ExtractOpenWeather_populates _ _ _ _ _ Htry Hrun)
      as (Tz & entry & Issued & Valid & weather & first & icon & code & S & mps
          & uW & vT & vD & vS & _ & Hp & HS & Hm & HU & _).
    by exists Tz, entry, Issued, Valid, S, mps, uW.
Qed.

(** ** What a fetch cycle leaves in the fields *)

Lemma written_lookup fields w k :
  metData (written fields w) !! k =
  match assigned fields !! k with Some v => Some v | None => metData w !! k end.
Proof.
  unfold written, assigned. cbn [metData].
  induction fields as [|[k' v'] fields IH] using rev_ind; [done|].
  rewrite !foldl_app. cbn [foldl fst snd].
  destruct (decide (k' = k)) as [->|Hne].
  - by rewrite !lookup_insert_eq.
  - by rewrite !lookup_insert_ne.
Qed.

Lemma MetOffice_try_Dict md1 md2 :
  md1 !! "Dict" = md2 !! "Dict" → MetOffice_try md1 = MetOffice_try md2.
Proof. intros H. unfold MetOffice_try, getitem. by rewrite H. Qed.

Lemma DarkSky_try_Dict md1 md2 :
  md1 !! "Dict" = md2 !! "Dict" → DarkSky_try md1 = DarkSky_try md2.
Proof. intros H. unfold DarkSky_try, getitem. by rewrite H. Qed.

Lemma OpenWeather_try_Dict md1 md2 :
  md1 !! "Dict" = md2 !! "Dict" → OpenWeather_try md1 = OpenWeather_try md2.
Proof. intros H. unfold OpenWeather_try, getitem. by rewrite H. Qed.

(** The nine keys of a list of assignments whose keys are the display
    fields. *)
Ltac display_keys :=
  split;
  [ intros k Hk; unfold display_fields in Hk;
    repeat (apply elem_of_cons in Hk as [->|Hk]); try (by apply elem_of_nil in Hk);
    unfold assigned; cbn [foldl fst snd];
    repeat (rewrite lookup_insert_ne by discriminate);
    rewrite lookup_insert_eq; eauto
  | intros k Hk; unfold display_fields in Hk; rewrite !not_elem_of_cons in Hk;
    destruct Hk as (?&?&?&?&?&?&?&?&?&_);
    unfold assigned; cbn [foldl fst snd];
    repeat (rewrite lookup_insert_ne by done); apply lookup_empty ].

Lemma Extract_populates p E Config w w' :
  found p (metData w) = Ok () →
  Extract p E Config w = (Ok (), w') →
  ∃ fields,
    ((∀ k, k ∈ display_fields → is_Some (assigned fields !! k)) ∧
     (∀ k, k ∉ display_fields → assigned fields !! k = None)) ∧
    ∀ w2, metData w2 !! "Dict" = metData w !! "Dict" →
      Extract p E Config w2 = (Ok (), written fields w2).
Proof.
  destruct p; cbn [found Extract]; intros Hf Hrun.
  - destruct (MetOffice_try (metData w)) as [[Issued metDict]|] eqn:Htry; [|done].
    destruct (ExtractMetOffice_populates _ _ _ _ _ _ Htry Hrun)
      as (Tz & today & rep & Valid & Pp & W & v & vT & vD & vS & _ & _ & _ & _ & _ & _ & Hw).
    eexists. split; [|intros w2 HD; apply Hw; by rewrite (MetOffice_try_Dict _ _ HD)].
    display_keys.
  - destruct (DarkSky_try (metData w)) as [metDict|] eqn:Htry; [|done].
    destruct (ExtractDarkSky_populates _ _ _ _ _ Htry Hrun)
      as (Tz & entry & Issued & Valid & P & P100 & p & icon & S & mps & uW
          & vT & vD & vS & _ & _ & _ & _ & _ & _ & _ & _ & _ & Hw).
    eexists. split; [|intros w2 HD; apply Hw; by rewrite (DarkSky_try_Dict _ _ HD)].
    display_keys.
  - destruct (OpenWeather_try (metData w)) as [metDict|] eqn:Htry; [|done].
    destruct (ExtractOpenWeather_populates _ _ _ _ _ Htry Hrun)
      as (Tz & entry & Issued & Valid & weather & first & icon & code & S & mps
          & uW & vT & vD & vS & _ & _ & _ & _ & _ & _ & _ & _ & _ & Hw).
    eexists. split; [|intros w2 HD; apply Hw; by rewrite (OpenWeather_try_Dict _ _ HD)].
    display_keys.
Qed.

Lemma Extract_unavailable p E Config w Tz :
  pytz_timezone (Station_Timezone Config) = Some Tz →
  found p (metData w) = Raise KeyError →
  Extract p E Config w = (Ok (), blanked (now E Tz) w).
Proof.
  intros HTz. destruct p; cbn [found Extract]; intros Hf.
  - apply ExtractMetOffice_unavailable; [done|].
    destruct (MetOffice_try (metData w)) as [?|e]; cbn in Hf; congruence.
  - apply ExtractDarkSky_unavailable; [done|].
    destruct (DarkSky_try (metData w)) as [?|e]; cbn in Hf; congruence.
  - apply ExtractOpenWeather_unavailable; [done|].
    destruct (OpenWeather_try (metData w)) as [?|e]; cbn in Hf; congruence.
Qed.

Lemma Extract_Ok_timezone p E Config w w' :
  Extract p E Config w = (Ok (), w') →
  ∃ Tz, pytz_timezone (Station_Timezone Config) = Some Tz.
Proof.
  destruct (pytz_timezone (Station_Timezone Config)) as [Tz|] eqn:HTz; [eauto|].
  destruct p; cbn [Extract];
    unfold ExtractMetOffice, ExtractDarkSky, ExtractOpenWeather, timezone;
    rewrite HTz; discriminate.
Qed.

Lemma blanked_fields Now w :
  metData (blanked Now w) !! "Time" = Some (PDatetime Now) ∧
  Forall (λ k, metData (blanked Now w) !! k = Some (PStr "--"))
         ["Temp"; "WindDir"; "WindSpd"; "Precip"; "Valid"] ∧
  metData (blanked Now w) !! "Weather" = Some (PStr "ForecastUnavailable") ∧
  metData (blanked Now w) !! "Issued" = metData w !! "Issued" ∧
  metData (blanked Now w) !! "Source" = metData w !! "Source" ∧
  metData (blanked Now w) !! "Dict" = metData w !! "Dict" ∧
  trace (blanked Now w) = trace w ++ [ScheduleOnce 600].
Proof.
  unfold blanked. cbn [metData trace].
  repeat split; repeat constructor;
    repeat (rewrite lookup_insert_ne by discriminate);
    by rewrite ?lookup_insert_eq.
Qed.

(** C2, as the code has it: an extraction that finds the raw data and
    returns has assigned all nine display fields, with values that do not
    depend on what the dictionary held before apart from the raw data, and
    has touched nothing else; an extraction that does not find the raw data
    assigns '--' to Temp, WindDir, WindSpd, Precip and Valid,
    'ForecastUnavailable' to Weather and the current time to Time, leaves
    Issued and Source as they were, and schedules one retry. *)
Theorem fetch_cycle_fields p E Config w w' :
  Extract p E Config w = (Ok (), w') →
  (found p (metData w) = Ok () →
   ∃ value : gmap string pyobj,
     (∀ k, k ∈ display_fields → is_Some (value !! k)) ∧
     ∀ w2, metData w2 !! "Dict" = metData w !! "Dict" →
       ∃ w2', Extract p E Config w2 = (Ok (), w2') ∧ trace w2' = trace w2 ∧
         (∀ k, k ∈ display_fields → metData w2' !! k = value !! k) ∧
         (∀ k, k ∉ display_fields → metData w2' !! k = metData w2 !! k)) ∧
  (found p (metData w) = Raise KeyError →
   ∃ Tz, pytz_timezone (Station_Timezone Config) = Some Tz ∧
     w' = blanked (now E Tz) w ∧
     metData w' !! "Time" = Some (PDatetime (now E Tz)) ∧
     Forall (λ k, metData w' !! k = Some (PStr "--"))
            ["Temp"; "WindDir"; "WindSpd"; "Precip"; "Valid"] ∧
     metData w' !! "Weather" = Some (PStr "ForecastUnavailable") ∧
     metData w' !! "Issued" = metData w !! "Issued" ∧
     metData w' !! "Source" = metData w !! "Source" ∧
     trace w' = trace w ++ [ScheduleOnce 600]).
Proof.
  intros Hrun. split.
  - intros Hf.
    destruct (Extract_populates _ _ _ _ _ Hf Hrun) as (fields & [Hin Hout] & Hw).
    exists (assigned fields). split; [done|]. intros w2 HD.
    exists (written fields w2). split; [by apply Hw|]. split; [done|]. split.
    + intros k Hk. rewrite written_lookup. by destruct (Hin k Hk) as [v ->].
    + intros k Hk. by rewrite written_lookup, (Hout k Hk).
  - intros Hf. destruct (Extract_Ok_timezone _ _ _ _ _ Hrun) as [Tz HTz].
    exists Tz. rewrite (Extract_unavailable _ _ _ _ _ HTz Hf) in Hrun.
    injection Hrun as <-.
    destruct (blanked_fields (now E Tz) w) as (?&?&?&?&?&?&?).
    by repeat split.
Qed.

(** ** A payload without its top-level key *)

Lemma found_without_key p md kv :
  md !! "Dict" = Some (PDict kv) → dict_get kv (top_level_key p) = None →
  found p md = Raise KeyError.
Proof.
  intros HD Hk.
  destruct p; cbn [found top_level_key] in *;
    unfold MetOffice_try, DarkSky_try, OpenWeather_try, getitem;
    rewrite HD; cbn [mbind res_bind getitem_str]; by rewrite Hk.
Qed.

(** C3, as the code has it: when the time zone is known, the payload lacks
    the provider's top-level key and no raw data with that key is cached,
    the fetch cycle returns with '--' in Temp, WindDir, WindSpd, Precip and
    Valid, 'ForecastUnavailable' in Weather and the current time in Time;
    Issued and Source stay as they were; and after the request the cycle
    schedules a retry of 600 seconds and nothing but such retries. This
    holds whichever way the shape check decides on the payload. *)
Theorem Download_missing_top_level_key p E Config Tz w kv :
  selects Config p →
  pytz_timezone (Station_Timezone Config) = Some Tz →
  http E p = Some (PDict kv) →
  dict_get kv (top_level_key p) = None →
  (∀ d, metData w !! "Dict" = Some d →
        ∃ kv', d = PDict kv' ∧ dict_get kv' (top_level_key p) = None) →
  ∃ w',
    Download E Config w = (Ok (), w') ∧
    metData w' !! "Time" = Some (PDatetime (now E Tz)) ∧
    Forall (λ k, metData w' !! k = Some (PStr "--"))
           ["Temp"; "WindDir"; "WindSpd"; "Precip"; "Valid"] ∧
    metData w' !! "Weather" = Some (PStr "ForecastUnavailable") ∧
    metData w' !! "Issued" = metData w !! "Issued" ∧
    metData w' !! "Source" = metData w !! "Source" ∧
    ∃ n, trace w' = trace w ++ HttpGet p :: replicate (S n) (ScheduleOnce 600).
Proof.
  intros Hs HTz Hhttp Hk Hcache.
  assert (Hf : found p (metData (after_request p E w)) = Raise KeyError ∧
               (∀ k, k ≠ "Dict" →
                     metData (after_request p E w) !! k = metData w !! k) ∧
               ∃ n, trace (after_request p E w) ++ [ScheduleOnce 600] =
                    trace w ++ HttpGet p :: replicate (S n) (ScheduleOnce 600)).
  { unfold after_request.
    destruct (verifyResponse (http E p) (top_level_key p)); cbn [metData trace].
    - rewrite Hhttp. cbn [default]. split; [|split].
      + apply (found_without_key _ _ kv); [|done]. by rewrite lookup_insert_eq.
      + intros k Hne. by rewrite lookup_insert_ne.
      + exists 0%nat. by rewrite <- app_assoc.
    - split; [|split].
      + destruct (metData w !! "Dict") as [d|] eqn:Hd.
        * destruct (Hcache d eq_refl) as (kv' & -> & Hk').
          by apply (found_without_key _ _ kv').
        * apply (found_without_key _ _ []); [|done]. by rewrite lookup_insert_eq.
      + intros k Hne. destruct (metData w !! "Dict"); [done|].
        by rewrite lookup_insert_ne.
      + exists 1%nat. by rewrite <- app_assoc. }
  destruct Hf as (Hf & Hother & n & Hn).
  exists (blanked (now E Tz) (after_request p E w)).
  rewrite (Download_selected _ _ _ _ Hs).
  split; [by apply Extract_unavailable|].
  destruct (blanked_fields (now E Tz) (after_request p E w))
    as (HT & HF & HW & HI & HS & _ & Htr).
  split; [done|]. split; [done|]. split; [done|].
  split; [by rewrite HI, Hother|]. split; [by rewrite HS, Hother|].
  exists n. by rewrite Htr.
Qed.

(** * Further properties of the module *)

(** ** What a statement keeps *)

Lemma same_outside_refl K w : same_outside K w w.
Proof. by intros k _. Qed.

Lemma same_outside_trans K w1 w2 w3 :
  same_outside K w1 w2 → same_outside K w2 w3 → same_outside K w1 w3.
Proof. intros H1 H2 k Hk. by rewrite H2, H1. Qed.

Lemma same_trace_trans w1 w2 w3 :
  same_trace w1 w2 → same_trace w2 w3 → same_trace w1 w3.
Proof. unfold same_trace. congruence. Qed.

Section Keeps.

Variable R : relation world.
Hypothesis R_refl : ∀ w, R w w.
Hypothesis R_trans : ∀ w1 w2 w3, R w1 w2 → R w2 w3 → R w1 w3.

Lemma keeps_ret {A} (a : A) : keeps R (mret a).
Proof. intros w. apply R_refl. Qed.

Lemma keeps_lift {A} (r : res A) : keeps R (lift r).
Proof. intros w. apply R_refl. Qed.

Lemma keeps_reads {A} (f : gmap string pyobj → res A) : keeps R (reads f).
Proof. intros w. apply R_refl. Qed.

Lemma keeps_bind {A B} (m : M A) (k : A → M B) :
  keeps R m → (∀ a, keeps R (k a)) → keeps R (m ≫= k).
Proof.
  intros Hm Hk w. rewrite M_bind_unfold. specialize (Hm w).
  destruct (m w) as [[a|e] w1]; simpl in *; [|done].
  eapply R_trans; [done|]. apply Hk.
Qed.

Lemma keeps_try {A B} (body : M A) (handler : M B) (rest : A → M B) :
  keeps R body → keeps R handler → (∀ a, keeps R (rest a)) →
  keeps R (try_except_KeyError body handler rest).
Proof.
  intros Hb Hh Hr w. unfold try_except_KeyError. specialize (Hb w).
  destruct (body w) as [[a|e] w1]; simpl in *.
  - eapply R_trans; [done|]. apply Hr.
  - destruct e; try done. eapply R_trans; [done|]. apply Hh.
Qed.

End Keeps.

Lemma same_outside_setitem K k v : k ∈ K → keeps (same_outside K) (setitem k v).
Proof.
  intros Hk w k' Hk'. simpl. apply lookup_insert_ne. by intros ->.
Qed.

Lemma same_outside_emit K e : keeps (same_outside K) (emit e).
Proof. by intros w k _. Qed.

Lemma same_trace_setitem k v : keeps same_trace (setitem k v).
Proof. by intros w. Qed.

(** The statements of an extraction, one after the other. *)
Ltac keeps R_refl R_trans :=
  repeat first
    [ apply (keeps_bind _ R_trans); [|intros ?]
    | apply (keeps_try _ R_trans); [| |intros ?]
    | apply (keeps_lift _ R_refl)
    | apply (keeps_reads _ R_refl)
    | apply (keeps_ret _ R_refl)
    | apply same_outside_emit
    | apply same_trace_setitem
    | apply same_outside_setitem; unfold display_fields; set_solver
    | match goal with |- keeps _ (let '(_, _) := ?x in _) => destruct x end
    | progress cbv zeta ].

Lemma Extract_same_outside p E Config :
  keeps (same_outside display_fields) (Extract p E Config).
Proof.
  destruct p; cbn [Extract];
    unfold ExtractMetOffice, ExtractDarkSky, ExtractOpenWeather;
    keeps (same_outside_refl display_fields) (same_outside_trans display_fields).
Qed.

Lemma Download_cases E Config w :
  Download E Config w = (Ok (), w) ∨
  ∃ p, selects Config p ∧
       Download E Config w = Extract p E Config (after_request p E w).
Proof.
  destruct (decide (Station_Country Config = "GB")) as [HC|HC].
  { right. exists MetOffice. split; [done|]. by apply Download_GB. }
  destruct (decide (Keys_DarkSky Config = "")) as [HD|HD].
  2:{ right. exists DarkSky. split; [done|]. by apply Download_DarkSky. }
  destruct (decide (Keys_OpenWeather Config = "")) as [HO|HO].
  2:{ right. exists OpenWeather. split; [done|]. by apply Download_OpenWeather. }
  left. unfold Download, truthy. apply String.eqb_neq in HC.
  by rewrite HC, HD, HO.
Qed.

Lemma after_request_other p E w k :
  k ≠ "Dict" → metData (after_request p E w) !! k = metData w !! k.
Proof.
  intros Hk. unfold after_request.
  destruct (verifyResponse (http E p) (top_level_key p)); cbn [metData].
  - by rewrite lookup_insert_ne.
  - destruct (metData w !! "Dict"); [done|]. by rewrite lookup_insert_ne.
Qed.

(** X1: whatever its outcome, a return or an exception, an extraction
    changes no key of the dictionary other than the nine display fields, and
    [Download] changes no key other than these and 'Dict'. *)
Theorem writes_only_display_fields p E Config w k :
  k ∉ display_fields →
  metData (Extract p E Config w).2 !! k = metData w !! k ∧
  (k ≠ "Dict" → metData (Download E Config w).2 !! k = metData w !! k).
Proof.
  intros Hk. split; [by apply Extract_same_outside|]. intros HD.
  destruct (Download_cases E Config w) as [->|(q & _ & ->)]; [done|].
  rewrite (Extract_same_outside q E Config _ k Hk). by apply after_request_other.
Qed.

(** ** Retries *)

Lemma same_trace_refl w : same_trace w w.
Proof. done. Qed.

Lemma keeps_trace {A} (m : M A) w : keeps same_trace m → trace (m w).2 = trace w.
Proof. intros H. apply H. Qed.

(** The outcome of the [try] decides: a result runs the statements after it,
    which schedule nothing; KeyError runs the [except] branch; any other
    exception ends the extraction. *)
Ltac retry_by_cases try_f unavailable_lemma HTz :=
  match goal with
  | |- context [try_f (metData ?w)] =>
      let Htry := fresh "Htry" in
      destruct (try_f (metData w)) as [?|[]] eqn:Htry;
      [ split; [|discriminate];
        unfold ExtractMetOffice, ExtractDarkSky, ExtractOpenWeather, timezone;
        rewrite HTz; repeat (rewrite M_bind_unfold; cbn [lift]);
        unfold try_except_KeyError, reads; rewrite Htry; cbv beta iota;
        cbn [mbind res_bind is_KeyError]; rewrite app_nil_r; apply keeps_trace;
        keeps same_trace_refl same_trace_trans
      | rewrite (unavailable_lemma _ _ _ _ HTz Htry); by split
      | split; [|discriminate];
        unfold ExtractMetOffice, ExtractDarkSky, ExtractOpenWeather, timezone;
        rewrite HTz; repeat (rewrite M_bind_unfold; cbn [lift]);
        unfold try_except_KeyError, reads; rewrite Htry;
        cbn [mbind res_bind is_KeyError snd trace]; by rewrite app_nil_r .. ]
  end.

Lemma Extract_retry p E Config w :
  trace (Extract p E Config w).2 =
    trace w ++ (if unavailable p Config (metData w) then [ScheduleOnce 600] else []) ∧
  (unavailable p Config (metData w) = true → (Extract p E Config w).1 = Ok ()).
Proof.
  unfold unavailable.
  destruct (pytz_timezone (Station_Timezone Config)) as [Tz|] eqn:HTz.
  2:{ split; [|discriminate]. rewrite app_nil_r.
      destruct p; cbn [Extract];
        unfold ExtractMetOffice, ExtractDarkSky, ExtractOpenWeather, timezone;
        by rewrite HTz. }
  destruct p; cbn [Extract found].
  - retry_by_cases MetOffice_try ExtractMetOffice_unavailable HTz.
  - retry_by_cases DarkSky_try ExtractDarkSky_unavailable HTz.
  - retry_by_cases OpenWeather_try ExtractOpenWeather_unavailable HTz.
Qed.

(** X2: an extraction schedules a retry in one case only, when the time zone
    is known and the lookup of the raw data raises KeyError; it then
    schedules exactly one, after 600 seconds, and returns normally. In every
    other case, and so whenever it ends in an exception, it schedules
    nothing. *)
Theorem Extract_retry_only_when_unavailable p E Config w :
  (unavailable p Config (metData w) = true →
     (Extract p E Config w).1 = Ok () ∧
     trace (Extract p E Config w).2 = trace w ++ [ScheduleOnce 600]) ∧
  (unavailable p Config (metData w) = false →
     trace (Extract p E Config w).2 = trace w) ∧
  (∀ e, (Extract p E Config w).1 = Raise e →
     trace (Extract p E Config w).2 = trace w).
Proof.
  destruct (Extract_retry p E Config w) as [Ht Hok].
  destruct (unavailable p Config (metData w)).
  - split; [intros _; split; [by apply Hok | done]|]. split; [done|].
    intros e He. rewrite (Hok eq_refl) in He. discriminate He.
  - rewrite app_nil_r in Ht. by repeat split.
Qed.

Lemma after_request_trace p E w :
  trace (after_request p E w) =
    trace w ++ HttpGet p ::
      (if verifyResponse (http E p) (top_level_key p) then [] else [ScheduleOnce 600]).
Proof.
  unfold after_request. by destruct (verifyResponse (http E p) (top_level_key p)).
Qed.

(** X3: a run of [Download] either selects no provider and changes nothing,
    or makes exactly one request, to the selected provider, and schedules at
    most two retries after it: one when the shape check fails and one when
    the extraction finds no raw data. A run that ends in an exception after a
    response that passed the shape check has scheduled nothing. *)
Theorem Download_trace E Config w :
  Download E Config w = (Ok (), w) ∨
  ∃ p, selects Config p ∧
    trace (Download E Config w).2 =
      trace w ++ HttpGet p ::
        (if verifyResponse (http E p) (top_level_key p) then [] else [ScheduleOnce 600]) ++
        (if unavailable p Config (metData (after_request p E w))
         then [ScheduleOnce 600] else []) ∧
    (∀ e, (Download E Config w).1 = Raise e →
          verifyResponse (http E p) (top_level_key p) = true →
          trace (Download E Config w).2 = trace w ++ [HttpGet p]).
Proof.
  destruct (Download_cases E Config w) as [?|(p & Hs & Hrun)]; [by left|].
  right. exists p. split; [done|]. rewrite Hrun.
  destruct (Extract_retry p E Config (after_request p E w)) as [Ht Hok].
  rewrite Ht, after_request_trace, <- app_assoc. split; [done|].
  intros e He Hv. rewrite Hv.
  destruct (unavailable p Config (metData (after_request p E w))).
  - rewrite (Hok eq_refl) in He. discriminate He.
  - by rewrite app_nil_r.
Qed.

(** ** Running an extraction again *)

Lemma found_Dict p md1 md2 :
  md1 !! "Dict" = md2 !! "Dict" → found p md1 = found p md2.
Proof.
  intros H. destruct p; cbn [found].
  - by rewrite (MetOffice_try_Dict _ _ H).
  - by rewrite (DarkSky_try_Dict _ _ H).
  - by rewrite (OpenWeather_try_Dict _ _ H).
Qed.

Lemma Extract_Ok_found p E Config w w' :
  Extract p E Config w = (Ok (), w') →
  found p (metData w) = Ok () ∨ found p (metData w) = Raise KeyError.
Proof.
  intros H. destruct (Extract_Ok_timezone _ _ _ _ _ H) as [Tz HTz].
  destruct p; cbn [Extract found] in *;
    unfold ExtractMetOffice, ExtractDarkSky, ExtractOpenWeather, timezone in H;
    rewrite HTz in H; repeat (rewrite M_bind_unfold in H; cbn [lift] in H);
    unfold try_except_KeyError, reads in H.
  - destruct (MetOffice_try (metData w)) as [?|[]]; try discriminate H; auto.
  - destruct (DarkSky_try (metData w)) as [?|[]]; try discriminate H; auto.
  - destruct (OpenWeather_try (metData w)) as [?|[]]; try discriminate H; auto.
Qed.

Lemma written_twice fields w :
  metData (written fields (written fields w)) = metData (written fields w).
Proof.
  apply map_eq. intros k. rewrite !written_lookup.
  by destruct (assigned fields !! k).
Qed.

(** The [except] branch as a list of assignments. *)
Lemma blanked_written Now w :
  metData (blanked Now w) =
  metData (written [("Time", PDatetime Now); ("Temp", PStr "--");
                    ("WindDir", PStr "--"); ("WindSpd", PStr "--");
                    ("Weather", PStr "ForecastUnavailable");
                    ("Precip", PStr "--"); ("Valid", PStr "--")] w).
Proof. reflexivity. Qed.

(** X4: an extraction that has returned, run again at the same time on the
    dictionary it left, returns again and leaves the dictionary as it is. *)
Theorem Extract_idempotent p E Config w w1 :
  Extract p E Config w = (Ok (), w1) →
  ∃ w2, Extract p E Config w1 = (Ok (), w2) ∧ metData w2 = metData w1.
Proof.
  intros Hrun. destruct (Extract_Ok_found _ _ _ _ _ Hrun) as [Hf|Hf].
  - destruct (Extract_populates _ _ _ _ _ Hf Hrun) as (fields & [_ Hout] & Hw).
    rewrite (Hw w eq_refl) in Hrun. injection Hrun as <-.
    exists (written fields (written fields w)). split; [|apply written_twice].
    apply Hw. rewrite written_lookup, Hout; [done|].
    intros H. unfold display_fields in H.
    repeat (apply elem_of_cons in H as [H|H]; [discriminate H|]).
    by apply elem_of_nil in H.
  - destruct (Extract_Ok_timezone _ _ _ _ _ Hrun) as [Tz HTz].
    rewrite (Extract_unavailable _ _ _ _ _ HTz Hf) in Hrun. injection Hrun as <-.
    exists (blanked (now E Tz) (blanked (now E Tz) w)). split.
    + apply Extract_unavailable; [done|]. rewrite <- Hf. apply found_Dict.
      by destruct (blanked_fields (now E Tz) w) as (_&_&_&_&_&?&_).
    + apply map_eq. intros k.
      rewrite (blanked_written _ (blanked _ _)), written_lookup.
      rewrite blanked_written, written_lookup.
      by destruct (assigned _ !! k).
Qed.

(** ** The entry of the current hour *)

Lemma list_getitem_last {A} (l : list A) (x : A) :
  last l = Some x → list_getitem l (-1) = Ok x.
Proof.
  intros Hl. unfold list_getitem, index_norm. cbn [Z.ltb Z.compare].
  rewrite last_lookup in Hl. pose proof (lookup_lt_Some _ _ _ Hl) as Hlt.
  replace (0 <=? -1 + Z.of_nat (length l)) with true
    by (symmetry; apply Z.leb_le; lia).
  replace (-1 + Z.of_nat (length l) <? Z.of_nat (length l)) with true
    by (symmetry; apply Z.ltb_lt; lia).
  cbn [andb]. replace (Z.to_nat (-1 + Z.of_nat (length l))) with (pred (length l)) by lia.
  by rewrite Hl.
Qed.

Lemma list_getitem_length {A} (l : list A) :
  list_getitem l (Z.of_nat (length l)) = Raise IndexError.
Proof.
  unfold list_getitem, index_norm.
  replace (Z.of_nat (length l) <? 0) with false by (symmetry; apply Z.ltb_ge; lia).
  rewrite Z.ltb_irrefl, andb_false_r. reflexivity.
Qed.

Lemma list_getitem_nil {A} (i : Z) : list_getitem (@nil A) i = Raise IndexError.
Proof. unfold list_getitem. by destruct (index_norm _ i). Qed.

(** On an ordered list, [bisect] is 0 when every element is larger and the
    length when none is. *)
Lemma bisect_all_later (l : list Z) (x : Z) :
  is_sorted l = true → (∀ i a, l !! i = Some a → x < a) →
  bisect (PInt <$> l) x = Ok 0.
Proof.
  intros Hs Hall.
  destruct (bisect_sorted l x Hs) as (r & Hr & Hlen & Hlo & _).
  destruct r as [|r]; [done|].
  destruct (lookup_lt_is_Some_2 l 0) as [a Ha]; [lia|].
  pose proof (Hlo 0%nat a ltac:(lia) Ha). pose proof (Hall _ _ Ha). lia.
Qed.

Lemma bisect_none_later (l : list Z) (x : Z) :
  is_sorted l = true → (∀ i a, l !! i = Some a → a ≤ x) →
  bisect (PInt <$> l) x = Ok (Z.of_nat (length l)).
Proof.
  intros Hs Hall.
  destruct (bisect_sorted l x Hs) as (r & Hr & Hlen & _ & Hup).
  destruct (decide (r = length l)) as [->|Hne]; [done|].
  destruct (lookup_lt_is_Some_2 l r) as [a Ha]; [lia|].
  pose proof (Hup r a ltac:(lia) Ha). pose proof (Hall _ _ Ha). lia.
Qed.

(** X5: on hourly entries whose times are ordered ints, of which one is at
    or before the first reading of the clock and one after the second, lines
    207-214 and 302-309 take the latest entry that starts at or before the
    first reading, the time of the first entry for 'Issued' and the time of
    the first entry after the second reading for 'Valid'. *)
Theorem hourly_period_current key E Tz entries times :
  mapM (λ item, getitem_str item key) entries = Ok (PInt <$> times) →
  is_sorted times = true →
  (∃ i s, times !! i = Some s ∧ s ≤ time1 E) →
  (∃ i s, times !! i = Some s ∧ time2 E < s) →
  ∃ j entry s j' s' t0,
    entries !! j = Some entry ∧ latest_period times (time1 E) j s ∧
    next_period times (time2 E) j' s' ∧ times !! 0%nat = Some t0 ∧
    hourly_period key E Tz (PList entries) =
      (Issued ← fromtimestamp (PInt t0) Tz;
       Valid ← fromtimestamp (PInt s') Tz;
       Ok (entry, Issued, Valid)).
Proof.
  intros Hm Hs (i1 & s1 & Hi1 & Hle1) (i2 & s2 & Hi2 & Hlt2).
  destruct (bisect_sorted times (time1 E) Hs) as (r1 & Hr1 & Hlen1 & Hlo1 & Hup1).
  destruct (bisect_sorted times (time2 E) Hs) as (r2 & Hr2 & Hlen2 & Hlo2 & Hup2).
  assert (Hir1 : (i1 < r1)%nat).
  { destruct (decide (i1 < r1)%nat) as [|Hn]; [done|].
    assert (time1 E < s1) by (apply (Hup1 i1); [lia|done]). lia. }
  assert (Hr2lt : (r2 < length times)%nat).
  { pose proof (lookup_lt_Some _ _ _ Hi2).
    destruct (decide (r2 ≤ i2)%nat) as [|Hn]; [lia|].
    assert (s2 ≤ time2 E) by (apply (Hlo2 i2); [lia|done]). lia. }
  pose proof (mapM_Ok_length _ _ _ Hm) as Hlen. rewrite length_fmap in Hlen.
  destruct (lookup_lt_is_Some_2 times (r1 - 1)) as [s Hj]; [lia|].
  destruct (lookup_lt_is_Some_2 entries (r1 - 1)) as [entry Hentry]; [lia|].
  destruct (lookup_lt_is_Some_2 times r2) as [s' Hj']; [lia|].
  destruct (lookup_lt_is_Some_2 times 0) as [t0 H0]; [lia|].
  exists (r1 - 1)%nat, entry, s, r2, s', t0.
  split; [done|]. split; [|split; [|split; [done|]]].
  - split; [done|]. split.
    + apply (Hlo1 (r1 - 1)%nat); [lia|done].
    + intros j0 s0 Hj0 Hs0. apply (Hup1 j0); [lia|done].
  - split; [done|]. split.
    + apply (Hup2 r2); [lia|done].
    + intros j0 s0 Hj0 Hs0. by apply (Hlo2 j0).
  - unfold hourly_period. cbn [py_iter mbind res_bind]. rewrite Hm.
    cbn [mbind res_bind]. rewrite Hr1. cbn [mbind res_bind getitem_int].
    replace (Z.of_nat r1 - 1) with (Z.of_nat (r1 - 1)) by lia.
    rewrite (list_getitem_nat _ _ _ Hentry). cbn [mbind res_bind].
    rewrite (list_getitem_nat (PInt <$> times) 0 (PInt t0))
      by (by rewrite list_lookup_fmap, H0).
    cbn [mbind res_bind]. rewrite Hr2. cbn [mbind res_bind].
    rewrite (list_getitem_nat (PInt <$> times) r2 (PInt s'))
      by (by rewrite list_lookup_fmap, Hj').
    reflexivity.
Qed.

Lemma hourly_period_past_last key E Tz entries times :
  mapM (λ item, getitem_str item key) entries = Ok (PInt <$> times) →
  is_sorted times = true →
  (∀ i s, times !! i = Some s → s ≤ time2 E) →
  hourly_period key E Tz (PList entries) = Raise IndexError.
Proof.
  intros Hm Hs Hall.
  pose proof (mapM_Ok_length _ _ _ Hm) as Hlen. rewrite length_fmap in Hlen.
  unfold hourly_period. cbn [py_iter mbind res_bind]. rewrite Hm.
  cbn [mbind res_bind].
  destruct (bisect_sorted times (time1 E) Hs) as (r1 & Hr1 & Hlen1 & _ & _).
  rewrite Hr1. cbn [mbind res_bind getitem_int].
  destruct entries as [|e entries].
  { by rewrite list_getitem_nil. }
  assert (∃ entry, list_getitem (e :: entries) (Z.of_nat r1 - 1) = Ok entry)
    as [entry ->].
  { destruct r1 as [|r1].
    - destruct (last (e :: entries)) as [x|] eqn:Hl.
      + exists x. by apply list_getitem_last.
      + by apply last_None in Hl.
    - destruct (lookup_lt_is_Some_2 (e :: entries) r1) as [x Hx]; [lia|].
      exists x. replace (Z.of_nat (S r1) - 1) with (Z.of_nat r1) by lia.
      by apply list_getitem_nat. }
  cbn [mbind res_bind].
  destruct (lookup_lt_is_Some_2 times 0) as [t0 H0]; [simpl in Hlen; lia|].
  rewrite (list_getitem_nat (PInt <$> times) 0 (PInt t0))
    by (by rewrite list_lookup_fmap, H0).
  cbn [mbind res_bind]. rewrite (bisect_none_later _ _ Hs Hall).
  cbn [mbind res_bind].
  rewrite <- (length_fmap PInt times), list_getitem_length. reflexivity.
Qed.

(** X6: when the time zone is known and the raw data is a list of hourly
    entries with ordered int times, none of them after the clock's second
    reading, [ExtractDarkSky] and [ExtractOpenWeather] end in IndexError
    (line 208 or 212, 303 or 307) and leave the dictionary and the timer as
    they were: no field is blanked and no retry is scheduled. *)
Theorem hourly_past_last_entry E Config Tz w entries times :
  pytz_timezone (Station_Timezone Config) = Some Tz →
  is_sorted times = true →
  (∀ i s, times !! i = Some s → s ≤ time2 E) →
  (DarkSky_try (metData w) = Ok (PList entries) →
   mapM (λ item, getitem_str item "time") entries = Ok (PInt <$> times) →
   ExtractDarkSky E Config w = (Raise IndexError, w)) ∧
  (OpenWeather_try (metData w) = Ok (PList entries) →
   mapM (λ item, getitem_str item "dt") entries = Ok (PInt <$> times) →
   ExtractOpenWeather E Config w = (Raise IndexError, w)).
Proof.
  intros HTz Hs Hall. split; intros Htry Hm.
  - unfold ExtractDarkSky, timezone. rewrite HTz.
    do 2 (rewrite M_bind_unfold; cbn [lift]).
    unfold try_except_KeyError, reads. rewrite Htry.
    rewrite M_bind_unfold. cbn [lift].
    by rewrite (hourly_period_past_last _ _ _ _ _ Hm Hs Hall).
  - unfold ExtractOpenWeather, timezone. rewrite HTz.
    rewrite M_bind_unfold; cbn [lift].
    unfold try_except_KeyError, reads. rewrite Htry.
    rewrite M_bind_unfold. cbn [lift].
    by rewrite (hourly_period_past_last _ _ _ _ _ Hm Hs Hall).
Qed.

(** X7: on hourly entries whose times are ordered ints, all of them after
    both readings of the clock, the index [bisect - 1] is -1: lines 207-214
    and 302-309 take the last entry of the list, and the time of the first
    entry for both 'Issued' and 'Valid'. *)
Theorem hourly_period_before_first key E Tz entries times entry t0 :
  mapM (λ item, getitem_str item key) entries = Ok (PInt <$> times) →
  is_sorted times = true →
  (∀ i s, times !! i = Some s → time1 E < s ∧ time2 E < s) →
  last entries = Some entry → times !! 0%nat = Some t0 →
  hourly_period key E Tz (PList entries) =
    (Issued ← fromtimestamp (PInt t0) Tz;
     Valid ← fromtimestamp (PInt t0) Tz;
     Ok (entry, Issued, Valid)).
Proof.
  intros Hm Hs Hall Hlast H0.
  unfold hourly_period. cbn [py_iter mbind res_bind]. rewrite Hm.
  cbn [mbind res_bind].
  rewrite (bisect_all_later _ _ Hs (λ i a H, proj1 (Hall i a H))).
  cbn [mbind res_bind getitem_int]. change (0 - 1) with (-1).
  rewrite (list_getitem_last _ _ Hlast). cbn [mbind res_bind].
  rewrite (list_getitem_nat (PInt <$> times) 0 (PInt t0))
    by (by rewrite list_lookup_fmap, H0).
  cbn [mbind res_bind].
  rewrite (bisect_all_later _ _ Hs (λ i a H, proj2 (Hall i a H))).
  cbn [mbind res_bind].
  rewrite (list_getitem_nat (PInt <$> times) 0 (PInt t0))
    by (by rewrite list_lookup_fmap, H0).
  reflexivity.
Qed.

(** ** The MetOffice reports at the edges *)

(** X8: when the reports of today have ordered start hours that are all
    after the current hour, the index [bisect - 1] is -1: lines 136-142 take
    the last report of the day, and its start plus 3 hours, 24 wrapped to 0,
    as the 'valid until' hour. With no report at all they raise
    IndexError. *)
Theorem MetOffice_period_before_first (reps : list pyobj) (starts : list Z)
    (Now : datetime) (rep : pyobj) (s : Z) :
  mapM period_start reps = Ok starts →
  is_sorted starts = true →
  (∀ i a, starts !! i = Some a → dt_hour Now < a) →
  last reps = Some rep → last starts = Some s →
  MetOffice_period (PList reps) Now = Ok (rep, valid_until s) ∧
  MetOffice_period (PList []) Now = Raise IndexError.
Proof.
  intros Hm Hs Hall Hrep Hlast. split; [|reflexivity].
  unfold MetOffice_period. cbn [py_iter mbind res_bind]. rewrite Hm.
  cbn [mbind res_bind]. rewrite (bisect_all_later _ _ Hs Hall).
  cbn [mbind res_bind getitem_int]. change (0 - 1) with (-1).
  rewrite (list_getitem_last _ _ Hrep). cbn [mbind res_bind].
  rewrite (list_getitem_last _ _ Hlast). reflexivity.
Qed.

Lemma list_index_missing (l : list pyobj) (s : string) :
  Forall (λ o, py_eq_str o s = false) l → list_index l s = Raise ValueError.
Proof.
  induction 1 as [|o l Ho _ IH]; [done|].
  cbn [list_index]. by rewrite Ho, IH.
Qed.

(** X9: when the time zone is known and the raw data holds a list of
    forecast days none of whose 'value' is today's date in the station's time
    zone, [ExtractMetOffice] ends in the ValueError of [Dates.index] (line
    132) and leaves the dictionary and the timer as they were. *)
Theorem ExtractMetOffice_date_missing E Config Tz w Issued days Dates :
  pytz_timezone (Station_Timezone Config) = Some Tz →
  MetOffice_try (metData w) = Ok (Issued, PList days) →
  mapM (λ item, getitem_str item "value") days = Ok Dates →
  Forall (λ o, py_eq_str o (strftime_Ymd_Z (now E Tz)) = false) Dates →
  ExtractMetOffice E Config w = (Raise ValueError, w).
Proof.
  intros HTz Htry Hm Hall.
  unfold ExtractMetOffice, timezone. rewrite HTz.
  rewrite M_bind_unfold; cbn [lift].
  unfold try_except_KeyError, reads. rewrite Htry.
  rewrite M_bind_unfold. cbn [lift].
  unfold MetOffice_today. cbn [py_iter mbind res_bind]. rewrite Hm.
  cbn [mbind res_bind]. by rewrite (list_index_missing _ _ Hall).
Qed.

(** ** The time zone and the cached response *)

(** X10: when [pytz.timezone] does not know the station's time zone, a run
    of [Download] that selects a provider makes the request, stores or keeps
    the raw data, and ends in UnknownTimeZoneError at the first line of the
    extraction: no display field is written, blanked or not, and the
    extraction schedules no retry. *)
Theorem Download_unknown_timezone E Config w p :
  selects Config p →
  pytz_timezone (Station_Timezone Config) = None →
  Download E Config w = (Raise UnknownTimeZoneError, after_request p E w).
Proof.
  intros Hs HTz. rewrite (Download_selected _ _ _ _ Hs).
  destruct p; cbn [Extract];
    unfold ExtractMetOffice, ExtractDarkSky, ExtractOpenWeather, timezone;
    by rewrite HTz.
Qed.

(** X11: a response that passes the shape check replaces the raw data
    under 'Dict', and the extraction does not touch it: whatever the outcome
    of the run, a return or an exception, 'Dict' holds the response's JSON
    document afterwards. *)
Theorem Download_caches_verified_response E Config w p :
  selects Config p →
  verifyResponse (http E p) (top_level_key p) = true →
  metData (Download E Config w).2 !! "Dict" = http E p.
Proof.
  intros Hs Hv. rewrite (Download_selected _ _ _ _ Hs).
  destruct (Extract_framed p E Config (after_request p E w)) as [-> _].
  unfold after_request. rewrite Hv. cbn [metData]. rewrite lookup_insert_eq.
  by destruct (http E p).
Qed.

(** X12: when the shape check fails while raw data that the extraction can
    use is cached, [Download] fills the display fields from the cached raw
    data exactly as an extraction of the dictionary would at the same time,
    and the only trace of the failure is the one retry it schedules. *)
Theorem Download_shows_cached_forecast E Config w w1 p :
  selects Config p →
  verifyResponse (http E p) (top_level_key p) = false →
  found p (metData w) = Ok () →
  Extract p E Config w = (Ok (), w1) →
  ∃ w2, Download E Config w = (Ok (), w2) ∧ metData w2 = metData w1 ∧
        trace w2 = trace w ++ [HttpGet p; ScheduleOnce 600].
Proof.
  intros Hs Hv Hf Hrun.
  destruct (Extract_populates _ _ _ _ _ Hf Hrun) as (fields & _ & Hw).
  rewrite (Hw w eq_refl) in Hrun. injection Hrun as <-.
  assert (HD : is_Some (metData w !! "Dict")).
  { destruct (metData w !! "Dict") eqn:Hd; [eauto|].
    destruct p; cbn [found] in Hf;
      unfold MetOffice_try, DarkSky_try, OpenWeather_try, getitem in Hf;
      rewrite Hd in Hf; discriminate Hf. }
  assert (Hmd : metData (after_failed_check p w) = metData w).
  { unfold after_failed_check. cbn [metData]. by destruct HD as [d ->]. }
  exists (written fields (after_failed_check p w)).
  rewrite (Download_selected _ _ _ _ Hs), (after_request_failed _ _ _ Hv).
  split; [apply Hw; by rewrite Hmd|]. split; [|done].
  unfold written. cbn [metData]. by rewrite Hmd.
Qed.

(** ** Keys missing from the selected entry *)

(** The expressions between the [try] and the first assignment, one after
    the other: each gives the result recorded in the context or raises; the
    world is the one the extraction started in. *)
Ltac raises_before_writing :=
  repeat (rewrite M_bind_unfold; cbn [lift];
          try match goal with
              | Heq : ?r = _ |- context [match ?r with Ok _ => _ | Raise _ => _ end] =>
                  rewrite Heq; cbv beta iota
              end;
          try match goal with
              | |- context [match ?r with Ok _ => _ | Raise _ => _ end] =>
                  destruct r as [?|?]; [|by eexists]
              end);
  by eexists.

(** X13: the lookups in the selected report or entry come after the [try],
    so a missing key there is not handled: when the report or entry lacks
    one of the keys the extraction reads from it, the extraction ends in an
    exception and leaves the dictionary and the timer as they were, with no
    field blanked and no retry scheduled. *)
Theorem entry_key_missing E Config Tz w :
  pytz_timezone (Station_Timezone Config) = Some Tz →
  (∀ Issued metDict today rep Valid k,
     MetOffice_try (metData w) = Ok (Issued, metDict) →
     MetOffice_today metDict (now E Tz) = Ok today →
     MetOffice_period today (now E Tz) = Ok (rep, Valid) →
     k ∈ ["T"; "S"; "D"; "Pp"; "W"] → getitem_str rep k = Raise KeyError →
     ∃ e, ExtractMetOffice E Config w = (Raise e, w)) ∧
  (∀ metDict entry Issued Valid k,
     DarkSky_try (metData w) = Ok metDict →
     hourly_period "time" E Tz metDict = Ok (entry, Issued, Valid) →
     k ∈ ["temperature"; "windSpeed"; "windBearing"; "precipProbability"; "icon"] →
     getitem_str entry k = Raise KeyError →
     ∃ e, ExtractDarkSky E Config w = (Raise e, w)) ∧
  (∀ metDict entry Issued Valid k,
     OpenWeather_try (metData w) = Ok metDict →
     hourly_period "dt" E Tz metDict = Ok (entry, Issued, Valid) →
     k ∈ ["temp"; "wind_speed"; "wind_deg"; "weather"] →
     getitem_str entry k = Raise KeyError →
     ∃ e, ExtractOpenWeather E Config w = (Raise e, w)).
Proof.
  intros HTz. split; [|split].
  - intros Issued metDict today rep Valid k Htry Htoday Hperiod Hk Hmiss.
    unfold ExtractMetOffice, timezone. rewrite HTz.
    rewrite M_bind_unfold; cbn [lift].
    unfold try_except_KeyError, reads. rewrite Htry. cbv beta iota.
    repeat (apply elem_of_cons in Hk as [->|Hk]); [..|by apply elem_of_nil in Hk];
      raises_before_writing.
  - intros metDict entry Issued Valid k Htry Hperiod Hk Hmiss.
    unfold ExtractDarkSky, timezone. rewrite HTz.
    do 2 (rewrite M_bind_unfold; cbn [lift]).
    unfold try_except_KeyError, reads. rewrite Htry. cbv beta iota.
    repeat (apply elem_of_cons in Hk as [->|Hk]); [..|by apply elem_of_nil in Hk];
      raises_before_writing.
  - intros metDict entry Issued Valid k Htry Hperiod Hk Hmiss.
    unfold ExtractOpenWeather, timezone. rewrite HTz.
    rewrite M_bind_unfold; cbn [lift].
    unfold try_except_KeyError, reads. rewrite Htry. cbv beta iota.
    repeat (apply elem_of_cons in Hk as [->|Hk]); [..|by apply elem_of_nil in Hk];
      raises_before_writing.
Qed.

End Forecast.

(** * The module on the sample inputs *)

Import Example.

Local Abbreviation sample_Download :=
  (Download Z pytz_timezone fromtimestamp float_of_str str_of_obj Units
            CardinalWindDirection).
Local Abbreviation sample_Extract :=
  (Extract Z pytz_timezone fromtimestamp float_of_str str_of_obj Units
           CardinalWindDirection).
Local Abbreviation sample_ExtractMetOffice :=
  (ExtractMetOffice Z pytz_timezone float_of_str str_of_obj Units).
Local Abbreviation sample_ExtractDarkSky :=
  (ExtractDarkSky Z pytz_timezone fromtimestamp Units CardinalWindDirection).
Local Abbreviation sample_ExtractOpenWeather :=
  (ExtractOpenWeather Z pytz_timezone fromtimestamp Units CardinalWindDirection).

(** C1 on the sample configurations: with the country 'GB' and both keys set
    the one request goes to the MetOffice, with another country and only the
    OpenWeather key to OpenWeather, and with both keys to DarkSky. *)
Lemma Download_provider_priority_witness :
  requests (trace (sample_Download online config_GB fresh).2) = [MetOffice] ∧
  requests (trace (sample_Download online config_OpenWeather fresh).2) = [OpenWeather] ∧
  requests (trace (sample_Download online config_DarkSky fresh).2) = [DarkSky].
Proof.
  split; [|split].
  - destruct (Download_provider_priority Z pytz_timezone fromtimestamp float_of_str
                str_of_obj Units CardinalWindDirection online config_GB fresh)
      as (H & _ & _).
    apply H. reflexivity.
  - destruct (Download_provider_priority Z pytz_timezone fromtimestamp float_of_str
                str_of_obj Units CardinalWindDirection online config_OpenWeather fresh)
      as (_ & H & _).
    apply H; [vm_compute; discriminate | reflexivity | vm_compute; discriminate].
  - destruct (Download_provider_priority Z pytz_timezone fromtimestamp float_of_str
                str_of_obj Units CardinalWindDirection online config_DarkSky fresh)
      as (_ & _ & H).
    apply H; vm_compute; discriminate.
Defined.

(** C10 on the configuration without keys: the dictionary that shows an
    earlier forecast comes back as it was. *)
Lemma Download_no_provider_witness :
  sample_Download online config_no_key shown = (Ok (), shown).
Proof.
  apply Download_no_provider; [vm_compute; discriminate | reflexivity | reflexivity].
Defined.

(** C4 without a response: cached raw data stays, an empty dict stands in
    when there is none. *)
Lemma Download_failed_shape_check_witness :
  metData (sample_Download offline config_GB (cached MetOffice)).2 !! "Dict" =
    Some MetOffice_json ∧
  metData (sample_Download offline config_DarkSky fresh).2 !! "Dict" = Some (PDict []).
Proof.
  split.
  - destruct (Download_failed_shape_check Z pytz_timezone fromtimestamp float_of_str
                str_of_obj Units CardinalWindDirection offline config_GB
                (cached MetOffice) MetOffice eq_refl eq_refl) as (_ & _ & H & _).
    exact H.
  - assert (Hs : selects config_DarkSky DarkSky) by (split; vm_compute; discriminate).
    destruct (Download_failed_shape_check Z pytz_timezone fromtimestamp float_of_str
                str_of_obj Units CardinalWindDirection offline config_DarkSky
                fresh DarkSky Hs eq_refl) as (_ & _ & H & _).
    exact H.
Defined.

(** C6 on the sample payload, whose reports start at 0, 3, ..., 21 hours: at
    14:05 'Valid' is '15:00', and at 23:10 it is '00:00'. *)
Lemma MetOffice_current_period_witness :
  metData (sample_ExtractMetOffice online config_GB (cached MetOffice)).2 !! "Valid" =
    Some (PStr "15:00") ∧
  metData (sample_ExtractMetOffice late_evening config_GB (cached MetOffice)).2 !! "Valid" =
    Some (PStr "00:00").
Proof.
  assert (Hday : ∀ (i : nat) (s : Z),
            [0; 3; 6; 9; 12; 15; 18; 21] !! i = Some s → 0 ≤ s < 24).
  { intros i s H.
    do 8 (destruct i as [|i]; [injection H as <-; lia|]). discriminate H. }
  assert (Hex : ∀ E : env Z, 0 ≤ dt_hour (now E 0) →
            ∃ (i : nat) (s : Z),
              [0; 3; 6; 9; 12; 15; 18; 21] !! i = Some s ∧ s ≤ dt_hour (now E 0)).
  { intros E H. exists 0%nat, 0. split; [reflexivity | exact H]. }
  split.
  - destruct (MetOffice_current_period Z pytz_timezone float_of_str str_of_obj Units
                online config_GB 0 (cached MetOffice)
                (sample_ExtractMetOffice online config_GB (cached MetOffice)).2
                "13:00" Period Reps [0; 3; 6; 9; 12; 15; 18; 21]
                eq_refl eq_refl eq_refl eq_refl eq_refl Hday)
      as (j & rep & s & _ & _ & _ & Hrun & H14 & _).
    { apply Hex. vm_compute. discriminate. }
    destruct (H14 eq_refl eq_refl) as [_ Hv].
    rewrite <- Hv. apply Hrun. vm_compute. reflexivity.
  - destruct (MetOffice_current_period Z pytz_timezone float_of_str str_of_obj Units
                late_evening config_GB 0 (cached MetOffice)
                (sample_ExtractMetOffice late_evening config_GB (cached MetOffice)).2
                "13:00" Period Reps [0; 3; 6; 9; 12; 15; 18; 21]
                eq_refl eq_refl eq_refl eq_refl eq_refl Hday)
      as (j & rep & s & _ & _ & _ & Hrun & _ & H23).
    { apply Hex. vm_compute. discriminate. }
    destruct (H23 eq_refl eq_refl) as [_ Hv].
    rewrite <- Hv. apply Hrun. vm_compute. reflexivity.
Defined.

(** The results that the steps of a run on the samples gave, computed. *)
Ltac sample_value H := vm_compute in H; injection H; clear H; intros; subst.

(** C7 on the three samples at 14:05: the DarkSky entry of 14:00 has the icon
    'rain', shown as '12'; the OpenWeather entry has '10d', shown as '14';
    the MetOffice report of 12:00 has the code '12', shown as it is. *)
Lemma icon_mapping_witness :
  metData (sample_ExtractDarkSky online config_DarkSky (cached DarkSky)).2
    !! "Weather" = Some (PStr "12") ∧
  metData (sample_ExtractOpenWeather online config_OpenWeather (cached OpenWeather)).2
    !! "Weather" = Some (PStr "14") ∧
  metData (sample_ExtractMetOffice online config_GB (cached MetOffice)).2
    !! "Weather" = Some (PStr "12").
Proof.
  split; [|split].
  - destruct (icon_mapping Z pytz_timezone fromtimestamp float_of_str str_of_obj Units
                CardinalWindDirection online config_DarkSky (cached DarkSky)
                (sample_ExtractDarkSky online config_DarkSky (cached DarkSky)).2)
      as (_ & _ & _ & _ & _ & H & _ & _).
    destruct (H DarkSky_data) as (Tz & entry & Issued & Valid & icon & HTz & Hp & Hi & HW);
      [reflexivity | vm_compute; reflexivity |].
    sample_value HTz. sample_value Hp. sample_value Hi. exact HW.
  - destruct (icon_mapping Z pytz_timezone fromtimestamp float_of_str str_of_obj Units
                CardinalWindDirection online config_OpenWeather (cached OpenWeather)
                (sample_ExtractOpenWeather online config_OpenWeather
                   (cached OpenWeather)).2)
      as (_ & _ & _ & _ & _ & _ & H & _).
    destruct (H OpenWeather_hourly)
      as (Tz & entry & Issued & Valid & weather & first & icon & code
          & HTz & Hp & H1 & H2 & H3 & H4 & HW);
      [reflexivity | vm_compute; reflexivity |].
    sample_value HTz. sample_value Hp. sample_value H1. sample_value H2.
    sample_value H3. sample_value H4. exact HW.
  - destruct (icon_mapping Z pytz_timezone fromtimestamp float_of_str str_of_obj Units
                CardinalWindDirection online config_GB (cached MetOffice)
                (sample_ExtractMetOffice online config_GB (cached MetOffice)).2)
      as (_ & _ & _ & _ & _ & _ & _ & H).
    destruct (H "13:00" Period) as (Tz & today & rep & Valid & W & HTz & Ht & Hp & Hi & HW);
      [reflexivity | vm_compute; reflexivity |].
    sample_value HTz. sample_value Ht. sample_value Hp. sample_value Hi. exact HW.
Defined.

(** C9 on the three samples at 14:05: the MetOffice report of 12:00 has the
    'Pp' 40, stored as it is; the DarkSky entry of 14:00 has the probability
    0.35, stored as '35'; OpenWeather's 'Precip' is '--'. *)
Lemma Precip_field_witness :
  metData (sample_ExtractMetOffice online config_GB (cached MetOffice)).2
    !! "Precip" = Some (PStr "40") ∧
  metData (sample_ExtractDarkSky online config_DarkSky (cached DarkSky)).2
    !! "Precip" = Some (PStr "35") ∧
  metData (sample_ExtractOpenWeather online config_OpenWeather (cached OpenWeather)).2
    !! "Precip" = Some (PStr "--").
Proof.
  split; [|split].
  - destruct (Precip_field Z pytz_timezone fromtimestamp float_of_str str_of_obj Units
                CardinalWindDirection online config_GB (cached MetOffice)
                (sample_ExtractMetOffice online config_GB (cached MetOffice)).2)
      as (H & _ & _).
    destruct (H "13:00" Period) as (Tz & today & rep & Valid & Pp & HTz & Ht & Hp & Hi & HW);
      [reflexivity | vm_compute; reflexivity |].
    sample_value HTz. sample_value Ht. sample_value Hp. sample_value Hi. exact HW.
  - destruct (Precip_field Z pytz_timezone fromtimestamp float_of_str str_of_obj Units
                CardinalWindDirection online config_DarkSky (cached DarkSky)
                (sample_ExtractDarkSky online config_DarkSky (cached DarkSky)).2)
      as (_ & H & _).
    destruct (H DarkSky_data)
      as (Tz & entry & Issued & Valid & P & P100 & p & HTz & Hp & H1 & H2 & H3 & HW);
      [reflexivity | vm_compute; reflexivity |].
    sample_value HTz. sample_value Hp. sample_value H1. sample_value H2.
    sample_value H3. exact HW.
  - destruct (Precip_field Z pytz_timezone fromtimestamp float_of_str str_of_obj Units
                CardinalWindDirection online config_OpenWeather (cached OpenWeather)
                (sample_ExtractOpenWeather online config_OpenWeather
                   (cached OpenWeather)).2)
      as (_ & _ & H).
    apply (H OpenWeather_hourly); [reflexivity | vm_compute; reflexivity].
Defined.

(** C8 on the OpenWeather sample: the wind speed of the entry of the current
    hour, multiplied by 0.2778, is what [observation.Units] is given. *)
Lemma wind_speed_conversion_witness :
  ∃ Tz entry Issued Valid S mps uWind,
    hourly_period Z fromtimestamp "dt" online Tz OpenWeather_hourly =
      Ok (entry, Issued, Valid) ∧
    getitem_str entry "wind_speed" = Ok S ∧ OpenWeather_wind_mps S = Ok mps ∧
    Units (PList [mps; PStr "mps"]) (Units_Wind config_OpenWeather) = Ok uWind.
Proof.
  destruct (wind_speed_conversion Z pytz_timezone fromtimestamp Units
              CardinalWindDirection online config_OpenWeather (cached OpenWeather)
              (sample_ExtractOpenWeather online config_OpenWeather (cached OpenWeather)).2)
    as (_ & _ & _ & _ & _ & H).
  apply (H OpenWeather_hourly); [reflexivity | vm_compute; reflexivity].
Defined.

(** C2 on the MetOffice samples: with a document whose 'SiteRep' holds
    nothing, the extraction leaves the 'Issued' of the earlier forecast and
    schedules one retry; with the sample payload it leaves a value under each
    of the nine fields. *)
Lemma fetch_cycle_fields_witness :
  (metData (sample_Extract MetOffice hollow config_GB
              (after_request Z MetOffice hollow shown)).2 !! "Issued" =
     Some (PStr "13:00") ∧
   trace (sample_Extract MetOffice hollow config_GB
            (after_request Z MetOffice hollow shown)).2 =
     [HttpGet MetOffice; ScheduleOnce 600]) ∧
  ∀ k, k ∈ display_fields →
       is_Some (metData (sample_Extract MetOffice online config_GB
                           (cached MetOffice)).2 !! k).
Proof.
  split.
  - destruct (fetch_cycle_fields Z pytz_timezone fromtimestamp float_of_str str_of_obj
                Units CardinalWindDirection MetOffice hollow config_GB
                (after_request Z MetOffice hollow shown)
                (sample_Extract MetOffice hollow config_GB
                   (after_request Z MetOffice hollow shown)).2)
      as [_ H]; [vm_compute; reflexivity|].
    destruct H as (Tz & _ & _ & _ & _ & _ & HI & _ & Ht); [reflexivity|].
    split; [exact HI | exact Ht].
  - destruct (fetch_cycle_fields Z pytz_timezone fromtimestamp float_of_str str_of_obj
                Units CardinalWindDirection MetOffice online config_GB
                (cached MetOffice)
                (sample_Extract MetOffice online config_GB (cached MetOffice)).2)
      as [H _]; [vm_compute; reflexivity|].
    destruct H as (value & Hin & Hall); [reflexivity|].
    destruct (Hall (cached MetOffice) eq_refl) as (w2' & Hrun & _ & Hval & _).
    intros k Hk. rewrite Hrun. cbn [snd]. rewrite (Hval k Hk). exact (Hin k Hk).
Defined.

(** C3 on a document without 'SiteRep', with no raw data cached: the run
    returns, the fields are blank, 'Issued' is as it was, and a retry is
    scheduled. *)
Lemma Download_missing_top_level_key_witness :
  (sample_Download no_key config_GB shown).1 = Ok () ∧
  metData (sample_Download no_key config_GB shown).2 !! "Weather" =
    Some (PStr "ForecastUnavailable") ∧
  metData (sample_Download no_key config_GB shown).2 !! "Issued" =
    Some (PStr "13:00") ∧
  ScheduleOnce 600 ∈ trace (sample_Download no_key config_GB shown).2.
Proof.
  assert (Hcache : ∀ d, metData shown !! "Dict" = Some d →
            ∃ kv', d = PDict kv' ∧ dict_get kv' (top_level_key MetOffice) = None).
  { intros d H. vm_compute in H. discriminate H. }
  destruct (Download_missing_top_level_key Z pytz_timezone fromtimestamp float_of_str
              str_of_obj Units CardinalWindDirection MetOffice no_key config_GB 0
              shown [("cod", PInt 401)] eq_refl eq_refl eq_refl eq_refl Hcache)
    as (w' & Hrun & _ & _ & HW & HI & _ & n & Ht).
  rewrite Hrun. cbn [fst snd]. split; [reflexivity|].
  split; [exact HW|]. split; [exact HI|].
  rewrite Ht. cbn [replicate]. rewrite elem_of_app, !elem_of_cons. auto.
Defined.

(** * Where the claims and the code part *)

(** C2 as stated fails: after an extraction that finds no data, 'Issued' and
    'Source' still hold the values of the earlier forecast, next to the
    blanked fields. *)
Lemma failed_fetch_keeps_Issued_and_Source :
  (sample_Download hollow config_GB shown).1 = Ok () ∧
  metData (sample_Download hollow config_GB shown).2 !! "Temp" = Some (PStr "--") ∧
  metData (sample_Download hollow config_GB shown).2 !! "Weather" =
    Some (PStr "ForecastUnavailable") ∧
  metData (sample_Download hollow config_GB shown).2 !! "Issued" = Some (PStr "13:00") ∧
  metData (sample_Download hollow config_GB shown).2 !! "Source" =
    Some (PStr "MetOffice").
Proof. by vm_compute. Qed.

(** C3 as stated fails: for a document without 'SiteRep' the cycle blanks
    Temp and Weather, and 'Issued' and 'Source' still hold the values of the
    earlier forecast, not the sentinel. *)
Lemma missing_key_leaves_Issued_and_Source :
  (sample_Download no_key config_GB shown).1 = Ok () ∧
  metData (sample_Download no_key config_GB shown).2 !! "Temp" = Some (PStr "--") ∧
  metData (sample_Download no_key config_GB shown).2 !! "Weather" =
    Some (PStr "ForecastUnavailable") ∧
  metData (sample_Download no_key config_GB shown).2 !! "Issued" =
    Some (PStr "13:00") ∧
  metData (sample_Download no_key config_GB shown).2 !! "Source" =
    Some (PStr "MetOffice") ∧
  metData (sample_Download no_key config_GB shown).2 !! "Issued" ≠ Some (PStr "--") ∧
  metData (sample_Download no_key config_GB shown).2 !! "Source" ≠ Some (PStr "--").
Proof. vm_compute. repeat split; first [reflexivity | discriminate]. Qed.

(** C8 as stated fails for OpenWeather: 10 becomes 2.778, not 4.4704, and
    the sample entry's wind speed of 10 is shown as 3 m/s. *)
Lemma OpenWeather_wind_speed_times_0_2778 :
  ∃ f, OpenWeather_wind_mps (PInt 10) = Ok (PFloat f) ∧
       is_close f 2.778 1e-6 = true ∧ is_close f 4.4704 1e-6 = false ∧
       metData (sample_Download online config_OpenWeather fresh).2 !! "WindSpd" =
         Some (PList [PStr "3"; PStr "mps"]).
Proof. eexists. by vm_compute. Qed.

(** C9 as stated fails for OpenWeather: the entry of the current hour holds
    a probability, and 'Precip' is '--'. *)
Lemma OpenWeather_Precip_blank :
  getitem_str (OpenWeather_entry 1593612000 "10d") "pop" = Ok (PFloat 0.35) ∧
  (sample_Download online config_OpenWeather fresh).1 = Ok () ∧
  metData (sample_Download online config_OpenWeather fresh).2 !! "Source" =
    Some (PStr "OpenWeather") ∧
  metData (sample_Download online config_OpenWeather fresh).2 !! "Precip" =
    Some (PStr "--").
Proof. by vm_compute. Qed.

(** C5 fails on the code: two days after the cached raw data was fetched,
    with no response, the DarkSky path ends in the IndexError of
    [Times[bisect.bisect(Times,int(time.time()))]] and the MetOffice path in
    the ValueError of [Dates.index]; neither is a KeyError, so neither is
    caught, and no field is written. *)
Theorem Download_raises :
  sample_Download two_days_later config_DarkSky (cached DarkSky) =
    (Raise IndexError,
     {| metData := metData (cached DarkSky);
        trace := [HttpGet DarkSky; ScheduleOnce 600] |}) ∧
  sample_Download two_days_later config_GB (cached MetOffice) =
    (Raise ValueError,
     {| metData := metData (cached MetOffice);
        trace := [HttpGet MetOffice; ScheduleOnce 600] |}).
Proof. by vm_compute. Qed.

(** * The further properties on the sample inputs *)

(** X1 on a run that ends in an exception: 'Dict' is as it was. *)
Lemma writes_only_display_fields_witness :
  metData (sample_Extract DarkSky two_days_later config_DarkSky (cached DarkSky)).2
    !! "Dict" = Some DarkSky_json.
Proof.
  assert (Hk : "Dict" ∉ display_fields).
  { intros H. unfold display_fields in H.
    repeat (apply elem_of_cons in H as [H|H]; [discriminate H|]).
    by apply elem_of_nil in H. }
  destruct (writes_only_display_fields Z pytz_timezone fromtimestamp float_of_str
              str_of_obj Units CardinalWindDirection DarkSky two_days_later
              config_DarkSky (cached DarkSky) "Dict" Hk) as [H _].
  exact H.
Defined.

(** X4 on the MetOffice sample: the extraction, run on what it left, leaves
    the same dictionary. *)
Lemma Extract_idempotent_witness :
  ∃ w2,
    sample_Extract MetOffice online config_GB
      (sample_Extract MetOffice online config_GB (cached MetOffice)).2 = (Ok (), w2) ∧
    metData w2 =
      metData (sample_Extract MetOffice online config_GB (cached MetOffice)).2.
Proof.
  apply (Extract_idempotent Z pytz_timezone fromtimestamp float_of_str str_of_obj
           Units CardinalWindDirection MetOffice online config_GB (cached MetOffice)).
  vm_compute. reflexivity.
Defined.

(** X5 on the DarkSky sample at 14:05: the entry of the current hour, the
    time of the first entry and the time of the next one. *)
Lemma hourly_period_current_witness :
  ∃ j entry s j' s' t0,
    [DarkSky_entry 1593608400 "cloudy"; DarkSky_entry 1593612000 "rain";
     DarkSky_entry 1593615600 "rain"] !! j = Some entry ∧
    latest_period [1593608400; 1593612000; 1593615600] (time1 online) j s ∧
    next_period [1593608400; 1593612000; 1593615600] (time2 online) j' s' ∧
    [1593608400; 1593612000; 1593615600] !! 0%nat = Some t0 ∧
    hourly_period Z fromtimestamp "time" online 0 DarkSky_data =
      (Issued ← fromtimestamp (PInt t0) 0;
       Valid ← fromtimestamp (PInt s') 0;
       Ok (entry, Issued, Valid)).
Proof.
  apply (hourly_period_current Z fromtimestamp "time" online 0
           [DarkSky_entry 1593608400 "cloudy"; DarkSky_entry 1593612000 "rain";
            DarkSky_entry 1593615600 "rain"]
           [1593608400; 1593612000; 1593615600] eq_refl eq_refl).
  - exists 0%nat, 1593608400. split; [reflexivity | vm_compute; discriminate].
  - exists 2%nat, 1593615600. split; reflexivity.
Defined.

(** X6 two days after the samples' last entry. *)
Lemma hourly_past_last_entry_witness :
  sample_ExtractDarkSky two_days_later config_DarkSky (cached DarkSky) =
    (Raise IndexError, cached DarkSky).
Proof.
  assert (Hall : ∀ (i : nat) (s : Z),
            [1593608400; 1593612000; 1593615600] !! i = Some s →
            s ≤ time2 two_days_later).
  { intros i s H.
    do 3 (destruct i as [|i]; [injection H as <-; vm_compute; discriminate|]).
    discriminate H. }
  destruct (hourly_past_last_entry Z pytz_timezone fromtimestamp Units
              CardinalWindDirection two_days_later config_DarkSky 0 (cached DarkSky)
              [DarkSky_entry 1593608400 "cloudy"; DarkSky_entry 1593612000 "rain";
               DarkSky_entry 1593615600 "rain"]
              [1593608400; 1593612000; 1593615600] eq_refl eq_refl Hall) as [H _].
  apply H; reflexivity.
Defined.

(** X7 before the samples' first entry: the entry of 15:00, the last one,
    with 13:00 as 'Issued' and as 'Valid'. *)
Lemma hourly_period_before_first_witness :
  hourly_period Z fromtimestamp "time" early 0 DarkSky_data =
    Ok (DarkSky_entry 1593615600 "rain", datetime_of 1593608400 0,
        datetime_of 1593608400 0).
Proof.
  assert (Hall : ∀ (i : nat) (s : Z),
            [1593608400; 1593612000; 1593615600] !! i = Some s →
            time1 early < s ∧ time2 early < s).
  { intros i s H.
    do 3 (destruct i as [|i]; [injection H as <-; split; reflexivity|]).
    discriminate H. }
  unfold DarkSky_data.
  rewrite (hourly_period_before_first Z fromtimestamp "time" early 0
             [DarkSky_entry 1593608400 "cloudy"; DarkSky_entry 1593612000 "rain";
              DarkSky_entry 1593615600 "rain"]
             [1593608400; 1593612000; 1593615600]
             (DarkSky_entry 1593615600 "rain") 1593608400
             eq_refl eq_refl Hall eq_refl eq_refl).
  reflexivity.
Defined.

(** X8 at 14:05 on the sample reports from 15:00 on: the report of 21:00,
    valid until 0. *)
Lemma MetOffice_period_before_first_witness :
  MetOffice_period (PList (drop 5 Reps)) (now online 0) =
    Ok (Rep "1260" "13" "9" "WNW" "6" "2", 0).
Proof.
  assert (Hall : ∀ (i : nat) (a : Z),
            [15; 18; 21] !! i = Some a → dt_hour (now online 0) < a).
  { intros i a H.
    do 3 (destruct i as [|i]; [injection H as <-; reflexivity|]).
    discriminate H. }
  destruct (MetOffice_period_before_first (drop 5 Reps) [15; 18; 21] (now online 0)
              (Rep "1260" "13" "9" "WNW" "6" "2") 21
              eq_refl eq_refl Hall eq_refl eq_refl) as [H _].
  exact H.
Defined.

(** X9 two days after the sample payload was fetched. *)
Lemma ExtractMetOffice_date_missing_witness :
  sample_ExtractMetOffice two_days_later config_GB (cached MetOffice) =
    (Raise ValueError, cached MetOffice).
Proof.
  apply (ExtractMetOffice_date_missing Z pytz_timezone float_of_str str_of_obj Units
           two_days_later config_GB 0 (cached MetOffice) "13:00"
           [PDict [("type", PStr "Day"); ("value", PStr "2020-07-01Z");
                   ("Rep", PList Reps)];
            PDict [("type", PStr "Day"); ("value", PStr "2020-07-02Z");
                   ("Rep", PList Reps)]]
           [PStr "2020-07-01Z"; PStr "2020-07-02Z"]);
    [reflexivity | reflexivity | reflexivity | repeat constructor].
Defined.

(** X10 on a station with a time zone that is not known. *)
Lemma Download_unknown_timezone_witness :
  sample_Download online config_lost fresh =
    (Raise UnknownTimeZoneError, after_request Z MetOffice online fresh).
Proof. apply Download_unknown_timezone; reflexivity. Defined.

(** X11 on the MetOffice sample. *)
Lemma Download_caches_verified_response_witness :
  metData (sample_Download online config_GB fresh).2 !! "Dict" = Some MetOffice_json.
Proof.
  exact (Download_caches_verified_response Z pytz_timezone fromtimestamp float_of_str
           str_of_obj Units CardinalWindDirection online config_GB fresh MetOffice
           eq_refl eq_refl).
Defined.

(** X12 without a response, on the cached MetOffice sample. *)
Lemma Download_shows_cached_forecast_witness :
  ∃ w2,
    sample_Download offline config_GB (cached MetOffice) = (Ok (), w2) ∧
    metData w2 =
      metData (sample_Extract MetOffice offline config_GB (cached MetOffice)).2 ∧
    trace w2 = trace (cached MetOffice) ++ [HttpGet MetOffice; ScheduleOnce 600].
Proof.
  apply (Download_shows_cached_forecast Z pytz_timezone fromtimestamp float_of_str
           str_of_obj Units CardinalWindDirection offline config_GB
           (cached MetOffice)); [reflexivity | reflexivity | reflexivity |].
  vm_compute. reflexivity.
Defined.

(** X13 on hourly entries that hold nothing but their time. *)
Lemma entry_key_missing_witness :
  ∃ e, sample_ExtractDarkSky online config_DarkSky bare = (Raise e, bare).
Proof.
  destruct (entry_key_missing Z pytz_timezone fromtimestamp float_of_str str_of_obj
              Units CardinalWindDirection online config_DarkSky 0 bare eq_refl)
    as (_ & H & _).
  apply (H (PList [PDict [("time", PInt 1593608400)];
                   PDict [("time", PInt 1593612000)];
                   PDict [("time", PInt 1593615600)]])
           (PDict [("time", PInt 1593612000)])
           (datetime_of 1593608400 0) (datetime_of 1593615600 0) "temperature");
    [reflexivity | reflexivity | apply elem_of_cons; by left | reflexivity].
Defined.
